(** * Training sessions of [lab7.py]: distance, mean speed, calories

    A shallow embedding of the three [Training] subclasses, of the summary
    line [show_training_info] and of the dispatcher [read_package].

    Python's [float] is IEEE-754 binary64; it is modelled by [spec_float]
    with the operations of the standard library's [SpecFloat] at precision
    53 and maximal exponent 1024 (round to nearest, ties to even).  Python's
    [int] is modelled by [Z].  Exceptions are values of an error monad. *)

From Stdlib Require Import ZArith NArith List String Ascii Bool Lia.
From Stdlib Require Import SpecFloat DecimalString.
Import ListNotations.

Local Open Scope string_scope.
Local Open Scope Z_scope.

(** ** Binary64 arithmetic *)

Module Float64.

Definition prec : Z := 53.
Definition emax : Z := 1024.

Definition float : Type := spec_float.

Definition add : float -> float -> float := SFadd prec emax.
Definition mul : float -> float -> float := SFmul prec emax.
Definition div : float -> float -> float := SFdiv prec emax.

Definition zero : float := S754_zero false.
Definition one : float := S754_finite false 4503599627370496 (-52).
Definition nan : float := S754_nan.
Definition infinity : float := S754_infinity false.

(** The double nearest to the integer [z] (infinite when [z] is out of
    range), as in [PyLong_AsDouble] before its range check. *)
Definition of_Z (z : Z) : float := binary_normalize prec emax z 0 false.

(** The double nearest to the decimal literal [m / 10^k].  Both [m] and
    [10^k] are exactly representable for the literals of the program, so
    the correctly rounded quotient is the correctly rounded literal. *)
Definition decimal (m : Z) (k : nat) : float :=
  div (of_Z m) (of_Z (10 ^ Z.of_nat k)).

Definition is_nan (x : float) : bool :=
  match x with S754_nan => true | _ => false end.

Definition is_infinity (x : float) : bool :=
  match x with S754_infinity _ => true | _ => false end.

Definition is_finite (x : float) : bool :=
  match x with S754_zero _ | S754_finite _ _ _ => true | _ => false end.

(** C's [x == y], [x >= 0.0] and [x > 0.0] on doubles. *)
Definition eqb : float -> float -> bool := SFeqb.
Definition ge0 (x : float) : bool := SFleb zero x.
Definition gt0 (x : float) : bool := SFltb zero x.

End Float64.

Import Float64.

(** ** Exceptions and results *)

Inductive exn : Type :=
| ValueError (msg : string)
| TypeError
| ZeroDivisionError
| OverflowError.

Inductive result (A : Type) : Type :=
| Ok (a : A)
| Raise (e : exn).

Arguments Ok {A} a.
Arguments Raise {A} e.

Definition bind {A B : Type} (c : result A) (k : A -> result B) : result B :=
  match c with
  | Ok a => k a
  | Raise e => Raise e
  end.

Notation "x <- c ;; k" := (bind c (fun x => k))
  (at level 61, c at next level, right associativity).

(** ** Numbers *)

(** The numeric arguments a session is built from: Python [int] or
    [float]. *)
Inductive pyval : Type :=
| PInt (z : Z)
| PFloat (f : float).

(** [CONVERT_TO_DOUBLE] of [floatobject.c]: a float is taken as it is, an
    int is rounded to the nearest double and raises [OverflowError] when it
    is too large. *)
Definition as_double (v : pyval) : result float :=
  match v with
  | PFloat f => Ok f
  | PInt z =>
      let f := of_Z z in
      if is_infinity f then Raise OverflowError else Ok f
  end.

(** [v * w], [v + w] and [v / w] when at least one operand is a float:
    [float_mul], [float_add] and [float_div] of [floatobject.c]. *)
Definition float_mul (v w : pyval) : result float :=
  a <- as_double v ;;
  b <- as_double w ;;
  Ok (mul a b).

Definition float_add (v w : pyval) : result float :=
  a <- as_double v ;;
  b <- as_double w ;;
  Ok (add a b).

Definition float_div (v w : pyval) : result float :=
  a <- as_double v ;;
  b <- as_double w ;;
  if eqb b zero then Raise ZeroDivisionError else Ok (div a b).

(** [v ** 2] for a float [v]: [float_pow] of [floatobject.c] at the
    exponent 2.  A NaN is returned as it is, an infinity gives [+inf], a
    zero gives [+0.0], one gives one; otherwise the [pow] of the C library
    is called on [|v|] and an infinite result raises [OverflowError].
    Here the C library's [pow] rounds the exact square to nearest; this is
    [float_pow_with square_rn] below, where the [pow] of any C library is
    a parameter.  Which values are returned and which raise, their sign and
    whether they are a NaN do not depend on that choice; the last bit of
    the square does. *)
Definition float_pow2 (iv : float) : result float :=
  match iv with
  | S754_nan => Ok iv
  | S754_infinity _ => Ok infinity
  | S754_zero _ => Ok zero
  | S754_finite _ m e =>
      let a := S754_finite false m e in
      if eqb a one then Ok one
      else
        let ix := mul a a in
        if is_infinity ix then Raise OverflowError else Ok ix
  end.

(** The same with the C library's [pow(x, 2.0)] as the parameter [pow];
    [float_pow] calls it on a finite [x > 0] other than one only. *)
Definition float_pow_with (pow : float -> float) (iv : float) : result float :=
  match iv with
  | S754_nan => Ok iv
  | S754_infinity _ => Ok infinity
  | S754_zero _ => Ok zero
  | S754_finite _ m e =>
      let a := S754_finite false m e in
      if eqb a one then Ok one
      else
        let ix := pow a in
        if is_infinity ix then Raise OverflowError else Ok ix
  end.

(** A [pow] that rounds the exact square to nearest. *)
Definition square_rn (x : float) : float := mul x x.

(** [x] is the double [r] or one of the two doubles next to it. *)
Definition near (r x : float) : Prop :=
  x = r \/ x = SFpred prec emax r \/ x = SFsucc prec emax r.

(** What a C library promises of its [pow] at the exponent 2: the result
    is less than one unit in the last place away from the exact square of
    a finite [x > 0], hence at most one double away from the correctly
    rounded square. *)
Definition pow_accurate (pow : float -> float) : Prop :=
  forall (m : positive) (e : Z),
    near (square_rn (S754_finite false m e)) (pow (S754_finite false m e)).


(** [v >= 0], [v > 0] and [v != 0] for a number [v]. *)
Definition py_ge0 (v : pyval) : bool :=
  match v with
  | PInt z => 0 <=? z
  | PFloat f => ge0 f
  end.

Definition py_gt0 (v : pyval) : bool :=
  match v with
  | PInt z => 0 <? z
  | PFloat f => gt0 f
  end.

Definition py_ne0 (v : pyval) : bool :=
  match v with
  | PInt z => negb (z =? 0)
  | PFloat f => negb (eqb f zero)
  end.

(** ** The format specification [.3f] *)

(** The integer nearest to [n / d], ties to the even one ([0 <= n],
    [0 < d]). *)
Definition round_half_even (n d : Z) : Z :=
  let q := n / d in
  let r := n mod d in
  match 2 * r ?= d with
  | Lt => q
  | Gt => q + 1
  | Eq => if Z.even q then q else q + 1
  end.

(** The integer nearest to [m * 2^e * 1000]: the digits of a finite double
    printed with three decimals are those of its exact value, correctly
    rounded. *)
Definition scaled3 (m : positive) (e : Z) : Z :=
  match e with
  | Zneg p => round_half_even (Zpos m * 1000) (2 ^ Zpos p)
  | _ => Zpos m * 1000 * 2 ^ e
  end.

Definition digits (n : Z) : string :=
  NilZero.string_of_uint (N.to_uint (Z.to_N n)).

Definition pad3 (s : string) : string :=
  match String.length s with
  | 1%nat => "00" ++ s
  | 2%nat => "0" ++ s
  | _ => s
  end.

Definition fixed3 (n : Z) : string :=
  digits (n / 1000) ++ "." ++ pad3 (digits (n mod 1000)).

Definition sign_str (s : bool) : string := if s then "-" else "".

Definition format_3f (x : float) : string :=
  match x with
  | S754_nan => "nan"
  | S754_infinity s => sign_str s ++ "inf"
  | S754_zero s => sign_str s ++ "0.000"
  | S754_finite s m e => sign_str s ++ fixed3 (scaled3 m e)
  end.

(** [format(v, '.3f')]: an int is converted to a float first. *)
Definition format_spec_3f (v : pyval) : result string :=
  x <- as_double v ;;
  Ok (format_3f x).

(** ** The classes *)

Module Running.
Definition CALORIES_MEAN_SPEED_MULTIPLIER : pyval := PInt 18.
Definition CALORIES_MEAN_SPEED_SHIFT : float := Eval vm_compute in decimal 179 2.
Definition LEN_STEP : float := Eval vm_compute in decimal 65 2.
End Running.

Module SportsWalking.
Definition CALORIES_WEIGHT_MULTIPLIER : float := Eval vm_compute in decimal 35 3.
Definition CALORIES_SPEED_HEIGHT_MULTIPLIER : float := Eval vm_compute in decimal 29 3.
Definition LEN_STEP : float := Eval vm_compute in decimal 65 2.
End SportsWalking.

Module Swimming.
Definition LEN_STEP : float := Eval vm_compute in decimal 138 2.
Definition CALORIES_SWIM_MULTIPLIER : float := Eval vm_compute in decimal 11 1.
Definition CALORIES_SWIM_SHIFT : pyval := PInt 2.
End Swimming.

(** An instance of one of the three concrete subclasses of [Training],
    with the attributes its [__init__] stores.  No attribute is checked or
    converted on construction. *)
Inductive Training : Type :=
| Running (action duration weight : pyval)
| SportsWalking (action duration weight height : pyval)
| Swimming (action duration weight pool_length pool_count : pyval).

Definition action (self : Training) : pyval :=
  match self with
  | Running a _ _ | SportsWalking a _ _ _ | Swimming a _ _ _ _ => a
  end.

Definition duration (self : Training) : pyval :=
  match self with
  | Running _ d _ | SportsWalking _ d _ _ | Swimming _ d _ _ _ => d
  end.

Definition weight (self : Training) : pyval :=
  match self with
  | Running _ _ w | SportsWalking _ _ w _ | Swimming _ _ w _ _ => w
  end.

(** [self.__class__.__name__] *)
Definition class_name (self : Training) : string :=
  match self with
  | Running _ _ _ => "Running"
  | SportsWalking _ _ _ _ => "SportsWalking"
  | Swimming _ _ _ _ _ => "Swimming"
  end.

(** [self.LEN_STEP], looked up in the class of [self]. *)
Definition LEN_STEP (self : Training) : float :=
  match self with
  | Running _ _ _ => Running.LEN_STEP
  | SportsWalking _ _ _ _ => SportsWalking.LEN_STEP
  | Swimming _ _ _ _ _ => Swimming.LEN_STEP
  end.

(** [self.action * self.LEN_STEP / 1000], the body of [get_distance] in
    each of the three classes. *)
Definition get_distance (self : Training) : result float :=
  match self with
  | Running action _ _ =>
      x <- float_mul action (PFloat Running.LEN_STEP) ;;
      float_div (PFloat x) (PInt 1000)
  | SportsWalking action _ _ _ =>
      x <- float_mul action (PFloat SportsWalking.LEN_STEP) ;;
      float_div (PFloat x) (PInt 1000)
  | Swimming action _ _ _ _ =>
      x <- float_mul action (PFloat Swimming.LEN_STEP) ;;
      float_div (PFloat x) (PInt 1000)
  end.

(** [self.get_distance() / self.duration], the body of [get_mean_speed]
    in each of the three classes. *)
Definition get_mean_speed (self : Training) : result float :=
  match self with
  | Running _ duration _ =>
      d <- get_distance self ;;
      float_div (PFloat d) duration
  | SportsWalking _ duration _ _ =>
      d <- get_distance self ;;
      float_div (PFloat d) duration
  | Swimming _ duration _ _ _ =>
      d <- get_distance self ;;
      float_div (PFloat d) duration
  end.

Definition get_spent_calories (self : Training) : result float :=
  match self with
  | Running _ duration weight =>
      mean_speed <- get_mean_speed self ;;
      t1 <- float_mul Running.CALORIES_MEAN_SPEED_MULTIPLIER (PFloat mean_speed) ;;
      t2 <- float_add (PFloat t1) (PFloat Running.CALORIES_MEAN_SPEED_SHIFT) ;;
      t3 <- float_mul (PFloat t2) weight ;;
      float_mul (PFloat t3) duration
  | SportsWalking _ duration weight height =>
      mean_speed <- get_mean_speed self ;;
      t1 <- float_mul (PFloat SportsWalking.CALORIES_WEIGHT_MULTIPLIER) weight ;;
      t2 <- float_pow2 mean_speed ;;
      t3 <- float_div (PFloat t2) height ;;
      t4 <- float_mul (PFloat t3)
              (PFloat SportsWalking.CALORIES_SPEED_HEIGHT_MULTIPLIER) ;;
      t5 <- float_mul (PFloat t4) weight ;;
      t6 <- float_add (PFloat t1) (PFloat t5) ;;
      t7 <- float_mul (PFloat t6) duration ;;
      float_mul (PFloat t7) (PInt 60)
  | Swimming _ duration weight _ _ =>
      mean_speed <- get_mean_speed self ;;
      t1 <- float_add (PFloat mean_speed) (PFloat Swimming.CALORIES_SWIM_MULTIPLIER) ;;
      t2 <- float_mul (PFloat t1) Swimming.CALORIES_SWIM_SHIFT ;;
      t3 <- float_mul (PFloat t2) weight ;;
      float_mul (PFloat t3) duration
  end.

(** [get_spent_calories] with the C library's [pow] as a parameter: the
    body of [SportsWalking.get_spent_calories] is the only one that uses
    the power operator. *)
Definition get_spent_calories_with (pow : float -> float) (self : Training)
  : result float :=
  match self with
  | SportsWalking _ duration weight height =>
      mean_speed <- get_mean_speed self ;;
      t1 <- float_mul (PFloat SportsWalking.CALORIES_WEIGHT_MULTIPLIER) weight ;;
      t2 <- float_pow_with pow mean_speed ;;
      t3 <- float_div (PFloat t2) height ;;
      t4 <- float_mul (PFloat t3)
              (PFloat SportsWalking.CALORIES_SPEED_HEIGHT_MULTIPLIER) ;;
      t5 <- float_mul (PFloat t4) weight ;;
      t6 <- float_add (PFloat t1) (PFloat t5) ;;
      t7 <- float_mul (PFloat t6) duration ;;
      float_mul (PFloat t7) (PInt 60)
  | _ => get_spent_calories self
  end.

(** ** The summary line *)

(** The fixed texts of the summary line: what precedes each field and the
    unit that follows it. *)
Record labels : Type := {
  l_type : string;
  l_duration : string;
  u_hours : string;
  l_distance : string;
  u_km : string;
  l_speed : string;
  u_kmh : string;
  l_calories : string
}.

(** The texts of the f-string of [show_training_info]. *)
Definition source_labels : labels := {|
  l_type := "Тип тренировки: ";
  l_duration := "Длительность: ";
  u_hours := " ч; ";
  l_distance := "Дистанция: ";
  u_km := " км; ";
  l_speed := "Ср. скорость: ";
  u_kmh := " км/ч; ";
  l_calories := "Потрачено ккал: "
|}.

(** The same texts in English. *)
Definition english_labels : labels := {|
  l_type := "Training type: ";
  l_duration := "Duration: ";
  u_hours := " h; ";
  l_distance := "Distance: ";
  u_km := " km; ";
  l_speed := "Mean speed: ";
  u_kmh := " km/h; ";
  l_calories := "Calories burned: "
|}.

(** The f-string of [show_training_info] with its fixed texts taken from
    [L]; the replacement fields are evaluated from left to right. *)
Definition summary_with (L : labels) (self : Training) : result string :=
  let name := class_name self in
  dur <- format_spec_3f (duration self) ;;
  d <- get_distance self ;;
  v <- get_mean_speed self ;;
  c <- get_spent_calories self ;;
  Ok (l_type L ++ name ++ "; " ++
      l_duration L ++ dur ++ u_hours L ++
      l_distance L ++ format_3f d ++ u_km L ++
      l_speed L ++ format_3f v ++ u_kmh L ++
      l_calories L ++ format_3f c ++ ".").

Definition show_training_info (self : Training) : result string :=
  summary_with source_labels self.

(** ** The dispatcher *)

(** The class objects stored in the dictionary of [read_package]. *)
Inductive klass : Type :=
| Running_class
| SportsWalking_class
| Swimming_class.

(** Calling a class on the unpacked arguments [*data]: [__init__] takes
    exactly three, four or five positional arguments after [self]; any
    other number raises [TypeError] before an instance is returned. *)
Definition call (c : klass) (data : list pyval) : result Training :=
  match c, data with
  | Running_class, [action; duration; weight] =>
      Ok (Running action duration weight)
  | SportsWalking_class, [action; duration; weight; height] =>
      Ok (SportsWalking action duration weight height)
  | Swimming_class, [action; duration; weight; pool_length; pool_count] =>
      Ok (Swimming action duration weight pool_length pool_count)
  | _, _ => Raise TypeError
  end.

Definition arity (c : klass) : nat :=
  match c with
  | Running_class => 3
  | SportsWalking_class => 4
  | Swimming_class => 5
  end.

Definition workout_types : list (string * klass) :=
  [("RUN", Running_class); ("WLK", SportsWalking_class); ("SWM", Swimming_class)].

(** Dictionary lookup, [None] when the key is absent. *)
Fixpoint lookup (key : string) (d : list (string * klass)) : option klass :=
  match d with
  | [] => None
  | (k, c) :: d' => if String.eqb key k then Some c else lookup key d'
  end.

Definition unknown_type_message : string := "Неизвестный тип тренировки".

Definition read_package (workout_type : string) (data : list pyval)
  : result Training :=
  match lookup workout_type workout_types with
  | Some c => call c data
  | None => Raise (ValueError unknown_type_message)
  end.

(** ** Predicates used in the statements *)

(** [v] converts to a finite double: a finite float, or an int in the range
    of the doubles. *)
Definition finite_number (v : pyval) : bool :=
  match as_double v with
  | Ok f => is_finite f
  | Raise _ => false
  end.

(** The height of a [SportsWalking] session is a finite number above
    zero; the other classes have no height. *)
Definition height_ok (self : Training) : bool :=
  match self with
  | SportsWalking _ _ _ height => finite_number height && py_gt0 height
  | _ => true
  end.

(** The smallest positive double, [5e-324]. *)
Definition min_subnormal : float := S754_finite false 1 (-1074).

(** [x >= 0] holds or [x] is a NaN: [x] is not a negative number. *)
Definition not_negative (x : float) : bool := ge0 x || is_nan x.

(** The message of the exception contains [code]. *)
Definition carries_code (e : exn) (code : string) : bool :=
  match e with
  | ValueError msg =>
      match String.index 0 code msg with
      | Some _ => true
      | None => false
      end
  | _ => false
  end.

(** The outcomes of rounding a nonnegative mantissa with sign [s], and
    those of rounding a positive one above the least exponent. *)
Inductive rounded (s : bool) : float -> Prop :=
| rounded_zero : rounded s (S754_zero s)
| rounded_finite m e : rounded s (S754_finite s m e)
| rounded_infinity : rounded s (S754_infinity s).

Inductive rounded_nonzero (s : bool) : float -> Prop :=
| rounded_nz_finite m e : rounded_nonzero s (S754_finite s m e)
| rounded_nz_infinity : rounded_nonzero s (S754_infinity s).

(** ** The driver *)

(** The list [packages] of [main]. *)
Definition packages : list (string * list pyval) :=
  [("RUN", [PInt 15000; PInt 1; PInt 75]);
   ("WLK", [PInt 9000; PInt 1; PInt 75; PInt 180]);
   ("SWM", [PInt 720; PInt 1; PInt 80; PInt 25; PInt 40])].

(** The [for] loop of [main] over a list of packages: the lines printed, in
    order, and the exception that ended the loop, if any.  A package whose
    [read_package] or [show_training_info] raises prints nothing and ends
    the loop. *)
Fixpoint print_all (ps : list (string * list pyval))
  : list string * option exn :=
  match ps with
  | [] => ([], None)
  | (workout_type, data) :: ps' =>
      match (training <- read_package workout_type data ;;
             show_training_info training) with
      | Raise e => ([], Some e)
      | Ok line =>
          let (out, r) := print_all ps' in
          (line :: out, r)
      end
  end.

Definition main : list string * option exn := print_all packages.

(** ** Further vocabulary of the statements *)

(** The code under which the class of a session is registered, and the
    attributes of a session in the order of the parameters of
    [__init__]. *)
Definition code_of (self : Training) : string :=
  match self with
  | Running _ _ _ => "RUN"
  | SportsWalking _ _ _ _ => "WLK"
  | Swimming _ _ _ _ _ => "SWM"
  end.

Definition init_args (self : Training) : list pyval :=
  match self with
  | Running a d w => [a; d; w]
  | SportsWalking a d w h => [a; d; w; h]
  | Swimming a d w pl pc => [a; d; w; pl; pc]
  end.

Definition is_zero (x : float) : bool :=
  match x with S754_zero _ => true | _ => false end.

(** [x <= 0.0] on doubles. *)
Definition le0 (x : float) : bool := SFleb x zero.

(** The text of a replacement field [{x:.3f}] ends in a point and three
    characters. *)
Definition three_decimals (s : string) : Prop :=
  exists ip fp : string,
    s = ip ++ "." ++ fp /\ String.length fp = 3%nat.

(** ** Rounding never loses a nonzero mantissa above the least exponent *)

Section Rounding.

Lemma digits2_pos_size (p : positive) : digits2_pos p = Pos.size p.
Proof. induction p; simpl; congruence. Qed.

Lemma digits2_pos_lower (p : positive) :
  2 ^ (Zpos (digits2_pos p) - 1) <= Zpos p.
Proof.
  rewrite digits2_pos_size.
  pose proof (Pos.size_le p) as H.
  assert (H' : 2 ^ Zpos (Pos.size p) <= 2 * Zpos p).
  { change (2 * Zpos p) with (Zpos (p~0)).
    rewrite <- Pos2Z.inj_pow. apply Pos2Z.pos_le_pos. exact H. }
  replace (Zpos (Pos.size p)) with (Z.succ (Zpos (Pos.size p) - 1)) in H' by lia.
  rewrite Z.pow_succ_r in H' by lia. lia.
Qed.

Lemma shr_1_m (mrs : shr_record) :
  0 <= shr_m mrs -> shr_m (shr_1 mrs) = shr_m mrs / 2.
Proof.
  destruct mrs as [m r s]. simpl. intros Hm.
  destruct m as [|p|p]; [reflexivity| |lia].
  destruct p as [p|p|]; simpl.
  - rewrite Pos2Z.inj_xI. apply Z.div_unique with (r := 1); lia.
  - rewrite Pos2Z.inj_xO. apply Z.div_unique with (r := 0); lia.
  - reflexivity.
Qed.

Lemma iter_shr_1_m (n : positive) : forall mrs : shr_record,
  0 <= shr_m mrs ->
  shr_m (iter_pos shr_1 n mrs) = shr_m mrs / 2 ^ Zpos n.
Proof.
  induction n as [n IH|n IH|]; intros mrs Hm; simpl iter_pos.
  - assert (H1 : 0 <= shr_m (shr_1 mrs)).
    { rewrite shr_1_m by assumption. apply Z.div_pos; lia. }
    assert (H2 : 0 <= shr_m (iter_pos shr_1 n (shr_1 mrs))).
    { rewrite IH by assumption. apply Z.div_pos; [assumption|]. apply Z.pow_pos_nonneg; lia. }
    rewrite IH, IH, shr_1_m by assumption.
    rewrite !Z.div_div by (try apply Z.pow_pos_nonneg; lia).
    f_equal.
    replace (2 ^ Zpos n~1) with (2 ^ (Zpos n + Zpos n + 1)) by (f_equal; lia).
    rewrite !Z.pow_add_r by lia. change (2 ^ 1) with 2. ring.
  - assert (H2 : 0 <= shr_m (iter_pos shr_1 n mrs)).
    { rewrite IH by assumption. apply Z.div_pos; [assumption|]. apply Z.pow_pos_nonneg; lia. }
    rewrite IH, IH by assumption.
    rewrite !Z.div_div by (try apply Z.pow_pos_nonneg; lia).
    f_equal.
    replace (2 ^ Zpos n~0) with (2 ^ (Zpos n + Zpos n)) by (f_equal; lia).
    rewrite !Z.pow_add_r by lia. ring.
  - rewrite shr_1_m by assumption. reflexivity.
Qed.

Lemma shr_record_of_loc_m (m : Z) (l : location) :
  shr_m (shr_record_of_loc m l) = m.
Proof. destruct l as [|[| |]]; reflexivity. Qed.

Lemma round_nearest_even_lower (m : Z) (l : location) :
  m <= round_nearest_even m l.
Proof.
  destruct l as [|[| |]]; simpl; try lia.
  destruct (Z.even m); lia.
Qed.

(** Shifting to the canonical exponent keeps a mantissa nonnegative. *)
Lemma shr_fexp_nonneg (m e : Z) (l : location) :
  0 <= m -> 0 <= shr_m (fst (shr_fexp prec emax m e l)).
Proof.
  intros Hm. unfold shr_fexp, shr.
  destruct (fexp prec emax (Zdigits2 m + e) - e) as [|n|n]; simpl;
    rewrite ?iter_shr_1_m; rewrite ?shr_record_of_loc_m; try assumption.
  apply Z.div_pos; [assumption|]. apply Z.pow_pos_nonneg; lia.
Qed.

(** Above the least exponent it keeps a positive mantissa positive: the
    shift is by fewer bits than the mantissa has. *)
Lemma shr_fexp_pos (m e : Z) (l : location) :
  0 < m -> -1074 <= e ->
  0 < shr_m (fst (shr_fexp prec emax m e l)) /\
  -1074 <= snd (shr_fexp prec emax m e l).
Proof.
  intros Hm He. unfold shr_fexp, shr.
  destruct (fexp prec emax (Zdigits2 m + e) - e) as [|n|n] eqn:Hn; simpl;
    rewrite ?shr_record_of_loc_m; try (split; assumption).
  rewrite iter_shr_1_m by (rewrite shr_record_of_loc_m; lia).
  rewrite shr_record_of_loc_m.
  destruct m as [|p|p]; try lia.
  simpl Zdigits2 in Hn.
  pose proof (digits2_pos_lower p) as Hd.
  unfold fexp, SpecFloat.emin, prec, emax in Hn.
  assert (Hle : Zpos n <= Zpos (digits2_pos p) - 1) by lia.
  split; [|lia].
  apply Z.div_str_pos. split; [apply Z.pow_pos_nonneg; lia|].
  apply Z.le_trans with (2 ^ (Zpos (digits2_pos p) - 1)); [|assumption].
  apply Z.pow_le_mono_r; lia.
Qed.

Lemma binary_round_aux_rounded (s : bool) (m e : Z) (l : location) :
  0 <= m -> rounded s (binary_round_aux prec emax s m e l).
Proof.
  intros Hm. unfold binary_round_aux.
  pose proof (shr_fexp_nonneg m e l Hm) as H1.
  destruct (shr_fexp prec emax m e l) as [mrs' e'] eqn:E1. simpl in H1.
  pose proof (round_nearest_even_lower (shr_m mrs') (loc_of_shr_record mrs')) as H2.
  pose proof (shr_fexp_nonneg
                (round_nearest_even (shr_m mrs') (loc_of_shr_record mrs'))
                e' loc_Exact ltac:(lia)) as H3.
  destruct (shr_fexp prec emax _ e' loc_Exact) as [mrs'' e''] eqn:E2.
  simpl in H3.
  destruct (shr_m mrs'') as [|q|q]; [constructor| |lia].
  destruct (e'' <=? emax - prec); constructor.
Qed.

Lemma binary_round_aux_nonzero (s : bool) (m e : Z) (l : location) :
  0 < m -> -1074 <= e ->
  rounded_nonzero s (binary_round_aux prec emax s m e l).
Proof.
  intros Hm He. unfold binary_round_aux.
  pose proof (shr_fexp_pos m e l Hm He) as [H1 H1'].
  destruct (shr_fexp prec emax m e l) as [mrs' e'] eqn:E1. simpl in H1, H1'.
  pose proof (round_nearest_even_lower (shr_m mrs') (loc_of_shr_record mrs')) as H2.
  pose proof (shr_fexp_pos
                (round_nearest_even (shr_m mrs') (loc_of_shr_record mrs'))
                e' loc_Exact ltac:(lia) H1') as [H3 _].
  destruct (shr_fexp prec emax _ e' loc_Exact) as [mrs'' e''] eqn:E2.
  simpl in H3.
  destruct (shr_m mrs'') as [|q|q]; try lia.
  destruct (e'' <=? emax - prec); constructor.
Qed.

Lemma binary_round_nonzero (s : bool) (p : positive) :
  rounded_nonzero s (binary_round prec emax s p 0).
Proof.
  unfold binary_round.
  destruct (shl_align p 0 _) as [mz ez] eqn:E.
  apply binary_round_aux_nonzero; [lia|].
  unfold shl_align in E.
  destruct (fexp prec emax (Zpos (digits2_pos p) + 0) - 0) eqn:Hf;
    inversion E; subst; try lia.
  unfold fexp, SpecFloat.emin, prec, emax. lia.
Qed.

Lemma binary_round_rounded (s : bool) (p : positive) (e : Z) :
  rounded s (binary_round prec emax s p e).
Proof.
  unfold binary_round.
  destruct (shl_align p e _) as [mz ez].
  apply binary_round_aux_rounded. lia.
Qed.

End Rounding.

(** ** Signs of the results of the arithmetic *)

Section Signs.

Lemma ge0_rounded (x : float) : rounded false x -> ge0 x = true.
Proof. intros []; reflexivity. Qed.

Lemma gt0_rounded_nonzero (x : float) : rounded_nonzero false x -> gt0 x = true.
Proof. intros []; reflexivity. Qed.

Lemma ge0_cases (x : float) :
  ge0 x = true ->
  (exists s, x = S754_zero s) \/ x = S754_infinity false \/
  (exists m e, x = S754_finite false m e).
Proof.
  destruct x as [s|[|]| |[|] m e]; try discriminate; intros _; eauto.
Qed.

Lemma mul_rounded (mx my : positive) (ex ey : Z) :
  rounded false (mul (S754_finite false mx ex) (S754_finite false my ey)).
Proof. apply binary_round_aux_rounded. lia. Qed.

Lemma add_rounded (mx my : positive) (ex ey : Z) :
  rounded false (add (S754_finite false mx ex) (S754_finite false my ey)).
Proof.
  unfold add, SFadd, cond_Zopp, binary_normalize.
  destruct (fst (shl_align mx ex (Z.min ex ey)) ) as [] eqn:E1;
    destruct (fst (shl_align my ey (Z.min ex ey))) as [] eqn:E2;
    cbn [Z.add]; apply binary_round_rounded.
Qed.

Lemma div_rounded (mx my : positive) (ex ey : Z) :
  rounded false (div (S754_finite false mx ex) (S754_finite false my ey)).
Proof.
  unfold div, SFdiv, SFdiv_core_binary.
  set (s := ex - ey - _).
  set (m' := match s with Z.pos _ => Z.shiftl (Zpos mx) s | 0 => Zpos mx | Z.neg _ => 0 end).
  assert (Hm' : 0 <= m').
  { subst m'. destruct s; try lia. apply Z.shiftl_nonneg. lia. }
  pose proof (Z.div_pos m' (Zpos my) Hm' ltac:(lia)) as Hq.
  unfold Z.div in Hq.
  destruct (Z.div_eucl m' (Zpos my)) as [q r].
  apply binary_round_aux_rounded. exact Hq.
Qed.

Lemma mul_ge0_pos (x : float) (m : positive) (e : Z) :
  ge0 x = true -> ge0 (mul x (S754_finite false m e)) = true.
Proof.
  intros H. destruct (ge0_cases x H) as [[s ->]|[->|(mx & ex & ->)]].
  - destruct s; reflexivity.
  - reflexivity.
  - apply ge0_rounded, mul_rounded.
Qed.

Lemma mul_pos_ge0 (m : positive) (e : Z) (x : float) :
  ge0 x = true -> ge0 (mul (S754_finite false m e) x) = true.
Proof.
  intros H. destruct (ge0_cases x H) as [[s ->]|[->|(mx & ex & ->)]].
  - destruct s; reflexivity.
  - reflexivity.
  - apply ge0_rounded, mul_rounded.
Qed.

Lemma div_ge0_pos (x : float) (m : positive) (e : Z) :
  ge0 x = true -> ge0 (div x (S754_finite false m e)) = true.
Proof.
  intros H. destruct (ge0_cases x H) as [[s ->]|[->|(mx & ex & ->)]].
  - destruct s; reflexivity.
  - reflexivity.
  - apply ge0_rounded, div_rounded.
Qed.

Lemma add_ge0 (x y : float) :
  ge0 x = true -> ge0 y = true -> ge0 (add x y) = true.
Proof.
  intros Hx Hy.
  destruct (ge0_cases x Hx) as [[sx ->]|[->|(mx & ex & ->)]];
    destruct (ge0_cases y Hy) as [[sy ->]|[->|(my & ey & ->)]];
    try reflexivity.
  - destruct sx, sy; reflexivity.
  - apply ge0_rounded, add_rounded.
Qed.

Lemma mul_not_negative (x y : float) :
  not_negative x = true -> not_negative y = true ->
  not_negative (mul x y) = true.
Proof.
  unfold not_negative. intros Hx Hy.
  apply orb_true_iff in Hx as [Hx|Hx]; [|destruct x; try discriminate; reflexivity].
  apply orb_true_iff in Hy as [Hy|Hy];
    [|destruct y; try discriminate; destruct x; reflexivity].
  destruct (ge0_cases x Hx) as [[sx ->]|[->|(mx & ex & ->)]];
    destruct (ge0_cases y Hy) as [[sy ->]|[->|(my & ey & ->)]];
    repeat match goal with s : bool |- _ => destruct s end;
    try reflexivity.
  rewrite (ge0_rounded _ (mul_rounded mx my ex ey)). reflexivity.
Qed.

Lemma add_not_negative (x y : float) :
  not_negative x = true -> not_negative y = true ->
  not_negative (add x y) = true.
Proof.
  unfold not_negative. intros Hx Hy.
  apply orb_true_iff in Hx as [Hx|Hx]; [|destruct x; try discriminate; reflexivity].
  apply orb_true_iff in Hy as [Hy|Hy];
    [|destruct y; try discriminate; destruct x; reflexivity].
  rewrite add_ge0 by assumption. reflexivity.
Qed.

Lemma ge0_not_negative (x : float) : ge0 x = true -> not_negative x = true.
Proof. unfold not_negative. intros ->. reflexivity. Qed.

End Signs.

(** ** Conversion of the arguments *)

Section Numbers.

Lemma of_Z_pos (p : positive) : rounded_nonzero false (of_Z (Zpos p)).
Proof. apply binary_round_nonzero. Qed.

Lemma of_Z_neg (p : positive) : rounded_nonzero true (of_Z (Zneg p)).
Proof. apply binary_round_nonzero. Qed.

(** A number different from zero converts to a double different from
    zero: the test of [float_div] passes. *)
Lemma as_double_ne0 (v : pyval) (b : float) :
  py_ne0 v = true -> as_double v = Ok b -> eqb b zero = false.
Proof.
  destruct v as [z|f]; simpl.
  - intros Hz Hb.
    destruct z as [|p|p]; [discriminate| |].
    + destruct (of_Z_pos p); simpl in Hb; inversion Hb; reflexivity.
    + destruct (of_Z_neg p); simpl in Hb; inversion Hb; reflexivity.
  - intros Hf Hb. inversion Hb; subst. now apply negb_true_iff.
Qed.

Lemma as_double_gt0 (v : pyval) :
  finite_number v = true -> py_gt0 v = true ->
  exists m e, as_double v = Ok (S754_finite false m e).
Proof.
  unfold finite_number. destruct v as [z|f]; simpl.
  - intros Hfin Hz. destruct z as [|p|p]; try discriminate.
    destruct (of_Z_pos p); simpl in *; [eauto|discriminate].
  - intros Hfin Hf.
    destruct f as [s|s| |[|] m e]; try discriminate; eauto.
Qed.

Lemma as_double_ge0 (v : pyval) :
  finite_number v = true -> py_ge0 v = true ->
  exists x, as_double v = Ok x /\ ge0 x = true.
Proof.
  unfold finite_number. destruct v as [z|f]; simpl.
  - intros Hfin Hz. destruct z as [|p|p]; try discriminate.
    + exists zero. split; reflexivity.
    + destruct (of_Z_pos p); simpl in *; [|discriminate].
      eexists; split; reflexivity.
  - intros _ Hf. eauto.
Qed.

Lemma float_div_ok (a b : float) (w : pyval) :
  as_double w = Ok b -> eqb b zero = false ->
  float_div (PFloat a) w = Ok (div a b).
Proof. unfold float_div. simpl. intros -> . simpl. intros ->. reflexivity. Qed.

Lemma float_div_1000 (x : float) :
  float_div (PFloat x) (PInt 1000) = Ok (div x (of_Z 1000)).
Proof. apply float_div_ok; reflexivity. Qed.

Lemma float_mul_l (a : float) (w : pyval) :
  float_mul (PFloat a) w = (b <- as_double w ;; Ok (mul a b)).
Proof. reflexivity. Qed.

Lemma float_mul_r (v : pyval) (b : float) :
  float_mul v (PFloat b) = (a <- as_double v ;; Ok (mul a b)).
Proof. unfold float_mul. destruct (as_double v); reflexivity. Qed.

Lemma float_add_ff (a b : float) :
  float_add (PFloat a) (PFloat b) = Ok (add a b).
Proof. reflexivity. Qed.

End Numbers.

(** ** The literals of the program *)

Section Literals.

Lemma running_constants :
  Running.LEN_STEP = decimal 65 2 /\
  Running.CALORIES_MEAN_SPEED_SHIFT = decimal 179 2 /\
  as_double Running.CALORIES_MEAN_SPEED_MULTIPLIER = Ok (of_Z 18).
Proof. repeat split; vm_compute; reflexivity. Qed.

Lemma walking_constants :
  SportsWalking.LEN_STEP = decimal 65 2 /\
  SportsWalking.CALORIES_WEIGHT_MULTIPLIER = decimal 35 3 /\
  SportsWalking.CALORIES_SPEED_HEIGHT_MULTIPLIER = decimal 29 3.
Proof. repeat split; vm_compute; reflexivity. Qed.

Lemma swimming_constants :
  Swimming.LEN_STEP = decimal 138 2 /\
  Swimming.CALORIES_SWIM_MULTIPLIER = decimal 11 1 /\
  as_double Swimming.CALORIES_SWIM_SHIFT = Ok (of_Z 2).
Proof. repeat split; vm_compute; reflexivity. Qed.

End Literals.

(** ** The summary of the running session of [main] *)

(** C1 (as amended): [read_package('RUN', [15000, 1, 75])] returns a
    [Running] instance whose [show_training_info()] is the line below, with
    the fields in the order type, duration, distance, mean speed, calories
    and three decimals each; the calories are 13296.750, that is
    [(18 * 9.75 + 1.79) * 75 * 1].  With the fixed texts in English the
    line reads "Training type: Running; Duration: 1.000 h; Distance:
    9.750 km; Mean speed: 9.750 km/h; Calories burned: 13296.750.". *)
Theorem read_package_run_summary :
  read_package "RUN" [PInt 15000; PInt 1; PInt 75]
    = Ok (Running (PInt 15000) (PInt 1) (PInt 75)) /\
  show_training_info (Running (PInt 15000) (PInt 1) (PInt 75))
    = Ok "Тип тренировки: Running; Длительность: 1.000 ч; Дистанция: 9.750 км; Ср. скорость: 9.750 км/ч; Потрачено ккал: 13296.750." /\
  summary_with english_labels (Running (PInt 15000) (PInt 1) (PInt 75))
    = Ok "Training type: Running; Duration: 1.000 h; Distance: 9.750 km; Mean speed: 9.750 km/h; Calories burned: 13296.750.".
Proof. repeat split; vm_compute; reflexivity. Qed.

(** C1 as the specification states it fails: whatever the fixed texts, the
    calories field of the summary is not 698.437. *)
Lemma read_package_run_summary_not_698 :
  read_package "RUN" [PInt 15000; PInt 1; PInt 75]
    = Ok (Running (PInt 15000) (PInt 1) (PInt 75)) /\
  summary_with english_labels (Running (PInt 15000) (PInt 1) (PInt 75))
    <> Ok "Training type: Running; Duration: 1.000 h; Distance: 9.750 km; Mean speed: 9.750 km/h; Calories burned: 698.437." /\
  show_training_info (Running (PInt 15000) (PInt 1) (PInt 75))
    <> Ok "Тип тренировки: Running; Длительность: 1.000 ч; Дистанция: 9.750 км; Ср. скорость: 9.750 км/ч; Потрачено ккал: 698.437." /\
  (c <- get_spent_calories (Running (PInt 15000) (PInt 1) (PInt 75)) ;;
   Ok (format_3f c)) = Ok "13296.750".
Proof.
  split; [reflexivity|].
  split; [vm_compute; discriminate|].
  split; [vm_compute; discriminate|].
  vm_compute. reflexivity.
Qed.

(** The other two sessions of [main]. *)
Example read_package_walk_summary :
  (s <- read_package "WLK" [PInt 9000; PInt 1; PInt 75; PInt 180] ;;
   summary_with english_labels s)
  = Ok "Training type: SportsWalking; Duration: 1.000 h; Distance: 5.850 km; Mean speed: 5.850 km/h; Calories burned: 182.311.".
Proof. vm_compute. reflexivity. Qed.

Example read_package_swim_summary :
  (s <- read_package "SWM" [PInt 720; PInt 1; PInt 80; PInt 25; PInt 40] ;;
   summary_with english_labels s)
  = Ok "Training type: Swimming; Duration: 1.000 h; Distance: 0.994 km; Mean speed: 0.994 km/h; Calories burned: 334.976.".
Proof. vm_compute. reflexivity. Qed.

(** The format rounds the exact value of the double, ties to even. *)
Example format_3f_examples :
  format_3f (decimal 5 4) = "0.001" /\ format_3f (decimal 25 1) = "2.500" /\
  format_3f (decimal 1 1) = "0.100" /\ format_3f (of_Z (-7)) = "-7.000" /\
  format_3f (div (of_Z 1) (of_Z 8192)) = "0.000" /\
  format_3f (div (of_Z 5) (of_Z 8192)) = "0.001" /\
  format_3f (div (of_Z 1) (of_Z 16)) = "0.062" /\
  format_3f (div (of_Z 3) (of_Z 16)) = "0.188".
Proof. repeat split; vm_compute; reflexivity. Qed.

(** ** Distance *)

(** C2: for every integer [action], [get_distance()] is
    [action * 0.65 / 1000] for [Running] and [SportsWalking] and
    [action * 1.38 / 1000] for [Swimming]: the integer is converted to a
    double, multiplied by the step length and divided by 1000, each
    operation rounding to nearest. *)
Theorem get_distance_formula (a : Z) (d w h pl pc : pyval) :
  get_distance (Running (PInt a) d w)
    = (x <- as_double (PInt a) ;; Ok (div (mul x (decimal 65 2)) (of_Z 1000))) /\
  get_distance (SportsWalking (PInt a) d w h)
    = (x <- as_double (PInt a) ;; Ok (div (mul x (decimal 65 2)) (of_Z 1000))) /\
  get_distance (Swimming (PInt a) d w pl pc)
    = (x <- as_double (PInt a) ;; Ok (div (mul x (decimal 138 2)) (of_Z 1000))).
Proof.
  destruct running_constants as (Hr & _), walking_constants as (Hw & _),
    swimming_constants as (Hs & _).
  unfold get_distance. rewrite !float_mul_r, Hr, Hw, Hs.
  repeat split; destruct (as_double (PInt a)); cbn [bind];
    rewrite ?float_div_1000; reflexivity.
Qed.

(** ** Mean speed *)

(** C3: for every variant and every session whose duration is not zero,
    [get_mean_speed()] is [get_distance() / duration]: the quotient of the
    value [get_distance()] returns and of the duration as a double. *)
Theorem get_mean_speed_formula (s : Training) :
  py_ne0 (duration s) = true ->
  get_mean_speed s =
    (d <- get_distance s ;; t <- as_double (duration s) ;; Ok (div d t)).
Proof.
  intros Hd.
  assert (H : forall d, float_div (PFloat d) (duration s)
                        = (t <- as_double (duration s) ;; Ok (div d t))).
  { intros d. destruct (as_double (duration s)) as [t|e] eqn:Ht.
    - cbn [bind]. apply float_div_ok; [assumption|].
      apply (as_double_ne0 (duration s)); assumption.
    - unfold float_div. cbn [as_double bind]. rewrite Ht. reflexivity. }
  destruct s; cbn [get_mean_speed];
    (destruct (get_distance _) as [x|e]; cbn [bind]; [apply H|reflexivity]).
Qed.

(** A duration of zero raises instead. *)
Example get_mean_speed_zero_duration :
  get_mean_speed (Running (PInt 15000) (PInt 0) (PInt 75))
    = Raise ZeroDivisionError /\
  get_mean_speed (Swimming (PInt 720) (PFloat zero) (PInt 80) (PInt 25) (PInt 40))
    = Raise ZeroDivisionError.
Proof. split; vm_compute; reflexivity. Qed.

Lemma get_mean_speed_formula_witness :
  py_ne0 (duration (Running (PInt 15000) (PInt 1) (PInt 75))) = true /\
  get_mean_speed (Running (PInt 15000) (PInt 1) (PInt 75))
  = (d <- get_distance (Running (PInt 15000) (PInt 1) (PInt 75)) ;;
     t <- as_double (PInt 1) ;; Ok (div d t)).
Proof.
  split; [reflexivity|].
  apply (get_mean_speed_formula (Running (PInt 15000) (PInt 1) (PInt 75))).
  reflexivity.
Defined.

(** ** Calories *)

(** The body of [Running.get_spent_calories], operation by operation. *)
Lemma running_calories_unfold (a d w : pyval) :
  get_spent_calories (Running a d w) =
    (mean_speed <- get_mean_speed (Running a d w) ;;
     weight <- as_double w ;;
     duration <- as_double d ;;
     Ok (mul (mul (add (mul (of_Z 18) mean_speed) (decimal 179 2)) weight)
           duration)).
Proof.
  destruct running_constants as (_ & Hshift & Hmult).
  cbn [get_spent_calories].
  destruct (get_mean_speed _) as [ms|e]; [|reflexivity]. cbn [bind].
  unfold float_mul at 1. rewrite Hmult. cbn [bind as_double].
  rewrite float_add_ff, Hshift. cbn [bind].
  rewrite float_mul_l.
  destruct (as_double w) as [w'|e]; [|reflexivity]. cbn [bind].
  rewrite float_mul_l. reflexivity.
Qed.

(** C4: for every [Running] session, [get_spent_calories()] is
    [(18 * mean_speed + 1.79) * weight * duration] with [mean_speed] the
    value of [get_mean_speed()]. *)
Theorem running_calories_formula (a d w : pyval) :
  get_spent_calories (Running a d w) =
    (mean_speed <- get_mean_speed (Running a d w) ;;
     weight <- as_double w ;;
     duration <- as_double d ;;
     Ok (mul (mul (add (mul (of_Z 18) mean_speed) (decimal 179 2)) weight)
           duration)).
Proof. exact (running_calories_unfold a d w). Qed.

(** The body of [SportsWalking.get_spent_calories], operation by operation;
    the division by a height that is not zero does not raise. *)
Lemma walking_calories_unfold (a d w h : pyval) :
  py_ne0 h = true ->
  get_spent_calories (SportsWalking a d w h) =
    (mean_speed <- get_mean_speed (SportsWalking a d w h) ;;
     weight <- as_double w ;;
     square <- float_pow2 mean_speed ;;
     height <- as_double h ;;
     duration <- as_double d ;;
     Ok (mul (mul (add (mul (decimal 35 3) weight)
                       (mul (mul (div square height) (decimal 29 3)) weight))
                  duration)
             (of_Z 60))).
Proof.
  intros Hh.
  destruct walking_constants as (_ & Hwm & Hsh).
  cbn [get_spent_calories].
  destruct (get_mean_speed _) as [ms|e]; [|reflexivity]. cbn [bind].
  rewrite float_mul_l, Hwm.
  destruct (as_double w) as [w'|e] eqn:Hw; [|reflexivity]. cbn [bind].
  destruct (float_pow2 ms) as [sq|e]; [|reflexivity]. cbn [bind].
  destruct (as_double h) as [h'|e] eqn:Hh'.
  - rewrite (float_div_ok sq h' h Hh' (as_double_ne0 h h' Hh Hh')).
    cbn [bind]. rewrite float_mul_l. cbn [bind as_double].
    rewrite float_mul_l, Hw. cbn [bind].
    rewrite float_add_ff, Hsh. cbn [bind].
    rewrite float_mul_l.
    destruct (as_double d) as [d'|e]; [|reflexivity]. cbn [bind].
    reflexivity.
  - unfold float_div. cbn [as_double bind]. rewrite Hh'. reflexivity.
Qed.

(** The power operator on any platform. *)

Lemma float_pow_with_square_rn (x : float) :
  float_pow_with square_rn x = float_pow2 x.
Proof. destruct x; reflexivity. Qed.

Lemma get_spent_calories_with_square_rn (s : Training) :
  get_spent_calories_with square_rn s = get_spent_calories s.
Proof. destruct s; reflexivity. Qed.





Lemma square_rn_accurate : pow_accurate square_rn.
Proof. intros m e. left. reflexivity. Qed.



(** The body of [Swimming.get_spent_calories], operation by operation. *)
Lemma swimming_calories_unfold (a d w pl pc : pyval) :
  get_spent_calories (Swimming a d w pl pc) =
    (mean_speed <- get_mean_speed (Swimming a d w pl pc) ;;
     weight <- as_double w ;;
     duration <- as_double d ;;
     Ok (mul (mul (mul (add mean_speed (decimal 11 1)) (of_Z 2)) weight)
           duration)).
Proof.
  destruct swimming_constants as (_ & Hmult & Hshift).
  cbn [get_spent_calories].
  destruct (get_mean_speed _) as [ms|e]; [|reflexivity]. cbn [bind].
  rewrite float_add_ff, Hmult. cbn [bind].
  rewrite float_mul_l, Hshift. cbn [bind].
  rewrite float_mul_l.
  destruct (as_double w) as [w'|e]; [|reflexivity]. cbn [bind].
  rewrite float_mul_l. reflexivity.
Qed.

(** C6: for every [Swimming] session, [get_spent_calories()] is
    [(mean_speed + 1.1) * 2 * weight * duration] with [mean_speed] the
    value of [get_mean_speed()]. *)
Theorem swimming_calories_formula (a d w pl pc : pyval) :
  get_spent_calories (Swimming a d w pl pc) =
    (mean_speed <- get_mean_speed (Swimming a d w pl pc) ;;
     weight <- as_double w ;;
     duration <- as_double d ;;
     Ok (mul (mul (mul (add mean_speed (decimal 11 1)) (of_Z 2)) weight)
           duration)).
Proof. exact (swimming_calories_unfold a d w pl pc). Qed.

(** ** The dispatcher *)

(** The dictionary holds the three codes and nothing else. *)
Lemma lookup_unknown (code : string) :
  code <> "RUN" -> code <> "WLK" -> code <> "SWM" ->
  lookup code workout_types = None.
Proof.
  intros H1 H2 H3. cbn [lookup workout_types].
  apply String.eqb_neq in H1, H2, H3. rewrite H1, H2, H3. reflexivity.
Qed.

Lemma lookup_known (code : string) (c : klass) :
  lookup code workout_types = Some c ->
  (code = "RUN" /\ c = Running_class) \/
  (code = "WLK" /\ c = SportsWalking_class) \/
  (code = "SWM" /\ c = Swimming_class).
Proof.
  cbn [lookup workout_types].
  destruct (String.eqb_spec code "RUN") as [->|_]; [intros [= <-]; auto|].
  destruct (String.eqb_spec code "WLK") as [->|_]; [intros [= <-]; auto|].
  destruct (String.eqb_spec code "SWM") as [->|_]; [intros [= <-]; auto|].
  discriminate.
Qed.

(** C7 (as amended): for the codes "RUN", "WLK" and "SWM" the dispatcher
    returns the [Running], [SportsWalking] or [Swimming] instance built
    from the arguments in their order; for any other code it raises
    [ValueError] with one fixed message, the same for every code. *)
Theorem read_package_dispatch (code : string) (data : list pyval) :
  (forall a d w : pyval,
      read_package "RUN" [a; d; w] = Ok (Running a d w)) /\
  (forall a d w h : pyval,
      read_package "WLK" [a; d; w; h] = Ok (SportsWalking a d w h)) /\
  (forall a d w pl pc : pyval,
      read_package "SWM" [a; d; w; pl; pc] = Ok (Swimming a d w pl pc)) /\
  (code <> "RUN" -> code <> "WLK" -> code <> "SWM" ->
   read_package code data = Raise (ValueError unknown_type_message)).
Proof.
  repeat split; try reflexivity.
  intros H1 H2 H3. unfold read_package.
  rewrite lookup_unknown by assumption. reflexivity.
Qed.

Lemma read_package_dispatch_witness :
  "XYZ" <> "RUN" /\ "XYZ" <> "WLK" /\ "XYZ" <> "SWM" /\
  read_package "XYZ" [PInt 1; PInt 1; PInt 1]
    = Raise (ValueError unknown_type_message).
Proof.
  split; [discriminate|]. split; [discriminate|]. split; [discriminate|].
  apply (read_package_dispatch "XYZ" [PInt 1; PInt 1; PInt 1]); discriminate.
Defined.

(** C7 as the specification states it fails: the error raised for the
    unknown code "XYZ" does not carry that code, and it is the error raised
    for the unknown code "ABC" too. *)
Lemma read_package_error_lacks_code :
  read_package "XYZ" [PInt 1; PInt 1; PInt 1]
    = Raise (ValueError unknown_type_message) /\
  carries_code (ValueError unknown_type_message) "XYZ" = false /\
  read_package "ABC" [PInt 1; PInt 1; PInt 1]
    = read_package "XYZ" [PInt 1; PInt 1; PInt 1].
Proof. repeat split; vm_compute; reflexivity. Qed.

(** C8: two [Swimming] sessions that agree on action, duration and weight
    have the same [get_distance()] and the same [get_mean_speed()],
    whatever their pool lengths and pool counts; in particular when the two
    values are swapped, also through the dispatcher. *)
Theorem swimming_pool_invariance (a d w pl pc pl' pc' : pyval) :
  get_distance (Swimming a d w pl pc) = get_distance (Swimming a d w pl' pc') /\
  get_mean_speed (Swimming a d w pl pc) = get_mean_speed (Swimming a d w pl' pc') /\
  (s <- read_package "SWM" [a; d; w; pl; pc] ;; get_distance s)
    = (s <- read_package "SWM" [a; d; w; pc; pl] ;; get_distance s) /\
  (s <- read_package "SWM" [a; d; w; pl; pc] ;; get_mean_speed s)
    = (s <- read_package "SWM" [a; d; w; pc; pl] ;; get_mean_speed s).
Proof. repeat split; reflexivity. Qed.

(** C9: for a code of the dictionary, a parameter list whose length is not
    the number of arguments of the constructor of its class (3, 4, 5) makes
    the dispatcher raise [TypeError], which is not the [ValueError] of an
    unknown code; no instance is returned. *)
Theorem read_package_arity_mismatch
    (code : string) (c : klass) (data : list pyval) :
  lookup code workout_types = Some c ->
  List.length data <> arity c ->
  read_package code data = Raise TypeError /\
  (forall s, read_package code data <> Ok s) /\
  (forall msg, read_package code data <> Raise (ValueError msg)).
Proof.
  intros Hc Hlen.
  assert (H : read_package code data = Raise TypeError).
  { unfold read_package. rewrite Hc.
    destruct c; cbn [arity] in Hlen;
      destruct data as [|x1 [|x2 [|x3 [|x4 [|x5 [|x6 data]]]]]];
      cbn [List.length] in Hlen; try reflexivity; congruence. }
  rewrite H. repeat split; intros; discriminate.
Qed.

Lemma read_package_arity_mismatch_witness :
  lookup "RUN" workout_types = Some Running_class /\
  List.length [PInt 15000; PInt 1] <> arity Running_class /\
  read_package "RUN" [PInt 15000; PInt 1] = Raise TypeError.
Proof.
  split; [reflexivity|]. split; [discriminate|].
  apply (read_package_arity_mismatch "RUN" Running_class [PInt 15000; PInt 1]);
    [reflexivity|discriminate].
Defined.


(** ** Signs of the three measures *)

Section Measures.

Lemma py_gt0_ne0 (v : pyval) : py_gt0 v = true -> py_ne0 v = true.
Proof.
  destruct v as [z|f]; simpl.
  - intros H. apply Z.ltb_lt in H. apply negb_true_iff, Z.eqb_neq. lia.
  - destruct f as [s|[|]| |[|] m e]; try discriminate; reflexivity.
Qed.

Lemma float_pow2_ge0 (x : float) :
  ge0 x = true ->
  (exists r, float_pow2 x = Ok r /\ ge0 r = true) \/
  float_pow2 x = Raise OverflowError.
Proof.
  intros H. destruct (ge0_cases x H) as [[s ->]|[->|(m & e & ->)]].
  - left. exists zero. split; reflexivity.
  - left. exists infinity. split; reflexivity.
  - cbn [float_pow2].
    destruct (eqb (S754_finite false m e) one).
    + left. exists one. split; reflexivity.
    + destruct (mul_rounded m m e e); cbn [is_infinity];
        [left; eexists; split; reflexivity ..|right; reflexivity].
Qed.

Lemma get_distance_ge0 (s : Training) :
  finite_number (action s) = true -> py_ge0 (action s) = true ->
  exists x, get_distance s = Ok x /\ ge0 x = true.
Proof.
  intros Hfin Hge.
  destruct (as_double_ge0 _ Hfin Hge) as (a & Ha & Hage).
  exists (div (mul a (LEN_STEP s)) (of_Z 1000)). split.
  - destruct s; cbn [action] in Ha; cbn [get_distance LEN_STEP];
      rewrite float_mul_r, Ha; cbn [bind]; apply float_div_1000.
  - change (of_Z 1000) with (S754_finite false 8796093022208000 (-43)).
    apply div_ge0_pos. destruct s; apply mul_ge0_pos; assumption.
Qed.

Lemma get_mean_speed_ge0 (s : Training) :
  finite_number (action s) = true -> py_ge0 (action s) = true ->
  finite_number (duration s) = true -> py_gt0 (duration s) = true ->
  exists v, get_mean_speed s = Ok v /\ ge0 v = true.
Proof.
  intros Hfin Hge Hdfin Hdgt.
  destruct (get_distance_ge0 s Hfin Hge) as (x & Hx & Hxge).
  destruct (as_double_gt0 _ Hdfin Hdgt) as (m & e & Hd).
  exists (div x (S754_finite false m e)). split.
  - destruct s; cbn [duration] in Hd; cbn [get_mean_speed];
      rewrite Hx; cbn [bind]; apply float_div_ok; (assumption || reflexivity).
  - apply div_ge0_pos. assumption.
Qed.

(** The three calorie formulas on doubles. *)

Lemma running_kcal_sign (ms w : float) (md : positive) (ed : Z) :
  ge0 ms = true -> ge0 w = true ->
  let c := mul (mul (add (mul (of_Z 18) ms) (decimal 179 2)) w)
             (S754_finite false md ed) in
  not_negative c = true /\
  (forall mw ew, w = S754_finite false mw ew -> ge0 c = true).
Proof.
  intros Hms Hw.
  assert (H2 : ge0 (add (mul (of_Z 18) ms) (decimal 179 2)) = true).
  { apply add_ge0; [|reflexivity].
    change (of_Z 18) with (S754_finite false 5066549580791808 (-48)).
    apply mul_pos_ge0. assumption. }
  split.
  - apply mul_not_negative; [|reflexivity].
    apply mul_not_negative; apply ge0_not_negative; assumption.
  - intros mw ew ->. apply mul_ge0_pos, mul_ge0_pos. assumption.
Qed.

Lemma swimming_kcal_sign (ms w : float) (md : positive) (ed : Z) :
  ge0 ms = true -> ge0 w = true ->
  let c := mul (mul (mul (add ms (decimal 11 1)) (of_Z 2)) w)
             (S754_finite false md ed) in
  not_negative c = true /\
  (forall mw ew, w = S754_finite false mw ew -> ge0 c = true).
Proof.
  intros Hms Hw.
  assert (H2 : ge0 (mul (add ms (decimal 11 1)) (of_Z 2)) = true).
  { change (of_Z 2) with (S754_finite false 4503599627370496 (-51)).
    apply mul_ge0_pos, add_ge0; [assumption|reflexivity]. }
  split.
  - apply mul_not_negative; [|reflexivity].
    apply mul_not_negative; apply ge0_not_negative; assumption.
  - intros mw ew ->. apply mul_ge0_pos, mul_ge0_pos. assumption.
Qed.

Lemma walking_kcal_sign (sq w : float) (mh md : positive) (eh ed : Z) :
  ge0 sq = true -> ge0 w = true ->
  let c := mul (mul (add (mul (decimal 35 3) w)
                        (mul (mul (div sq (S754_finite false mh eh))
                                (decimal 29 3)) w))
                  (S754_finite false md ed))
             (of_Z 60) in
  not_negative c = true /\
  (forall mw ew, w = S754_finite false mw ew -> ge0 c = true).
Proof.
  intros Hsq Hw.
  assert (H1 : ge0 (mul (decimal 35 3) w) = true).
  { change (decimal 35 3) with (S754_finite false 5044031582654956 (-57)).
    apply mul_pos_ge0. assumption. }
  assert (H4 : ge0 (mul (div sq (S754_finite false mh eh)) (decimal 29 3)) = true).
  { change (decimal 29 3) with (S754_finite false 8358680908399641 (-58)).
    apply mul_ge0_pos, div_ge0_pos. assumption. }
  change (of_Z 60) with (S754_finite false 8444249301319680 (-47)).
  split.
  - apply mul_not_negative; [|reflexivity].
    apply mul_not_negative; [|reflexivity].
    apply add_not_negative; [apply ge0_not_negative; assumption|].
    apply mul_not_negative; apply ge0_not_negative; assumption.
  - intros mw ew ->. apply mul_ge0_pos, mul_ge0_pos, add_ge0; [assumption|].
    apply mul_ge0_pos. assumption.
Qed.

End Measures.

(** With a weight above zero the calories are at least zero; with a weight
    of zero they may also be a NaN. *)
Lemma calories_sign_split (c : float) (w : pyval) (w' : float) :
  as_double w = Ok w' ->
  finite_number w = true ->
  not_negative c = true ->
  (forall mw ew, w' = S754_finite false mw ew -> ge0 c = true) ->
  ge0 c = true \/ (is_nan c = true /\ py_gt0 w = false).
Proof.
  intros Hw Hfin Hnn Hpos.
  destruct (py_gt0 w) eqn:Hgt.
  - left. destruct (as_double_gt0 w Hfin Hgt) as (mw & ew & Hw').
    rewrite Hw in Hw'. injection Hw' as ->. eapply Hpos; reflexivity.
  - unfold not_negative in Hnn. apply orb_true_iff in Hnn as [H|H]; auto.
Qed.

(** C10 (as amended): for every variant, if the action is a finite number
    at least zero, the weight a finite number at least zero, the duration
    a finite number above zero (and the height a finite number above zero
    for [SportsWalking]), then [get_distance()] and [get_mean_speed()] each
    return a value that is at least zero, and [get_spent_calories()] never
    returns a negative value: it returns a value at least zero, or a NaN
    and then the weight is zero, or, for [SportsWalking] only, raises
    [OverflowError]. *)
Theorem measures_not_negative (s : Training) :
  finite_number (action s) = true -> py_ge0 (action s) = true ->
  finite_number (weight s) = true -> py_ge0 (weight s) = true ->
  finite_number (duration s) = true -> py_gt0 (duration s) = true ->
  height_ok s = true ->
  (exists x, get_distance s = Ok x /\ ge0 x = true) /\
  (exists v, get_mean_speed s = Ok v /\ ge0 v = true) /\
  match get_spent_calories s with
  | Ok c => ge0 c = true \/ (is_nan c = true /\ py_gt0 (weight s) = false)
  | Raise e => e = OverflowError /\ class_name s = "SportsWalking"
  end.
Proof.
  intros Hafin Hage Hwfin Hwge Hdfin Hdgt Hh.
  split; [apply get_distance_ge0; assumption|].
  destruct (get_mean_speed_ge0 s Hafin Hage Hdfin Hdgt) as (v & Hv & Hvge).
  split; [eauto|].
  destruct (as_double_ge0 _ Hwfin Hwge) as (w' & Hw & Hw'ge).
  destruct (as_double_gt0 _ Hdfin Hdgt) as (md & ed & Hd).
  destruct s as [a d w|a d w h|a d w pl pc];
    cbn [weight duration] in Hw, Hd, Hwfin |- *.
  - rewrite running_calories_unfold, Hv, Hw, Hd. cbn [bind].
    destruct (running_kcal_sign v w' md ed Hvge Hw'ge) as [Hnn Hpos].
    eapply calories_sign_split; eassumption.
  - cbn [height_ok] in Hh. apply andb_true_iff in Hh as [Hhfin Hhgt].
    destruct (as_double_gt0 _ Hhfin Hhgt) as (mh & eh & Hh).
    rewrite walking_calories_unfold by (apply py_gt0_ne0; assumption).
    rewrite Hv, Hw. cbn [bind].
    destruct (float_pow2_ge0 v Hvge) as [(sq & -> & Hsq)| ->]; cbn [bind];
      [|split; reflexivity].
    rewrite Hh, Hd. cbn [bind].
    destruct (walking_kcal_sign sq w' mh md eh ed Hsq Hw'ge) as [Hnn Hpos].
    eapply calories_sign_split; eassumption.
  - rewrite swimming_calories_unfold, Hv, Hw, Hd. cbn [bind].
    destruct (swimming_kcal_sign v w' md ed Hvge Hw'ge) as [Hnn Hpos].
    eapply calories_sign_split; eassumption.
Qed.

Lemma measures_not_negative_witness :
  (exists x,
      get_distance (SportsWalking (PInt 9000) (PInt 1) (PInt 75) (PInt 180))
        = Ok x /\ ge0 x = true) /\
  (exists v,
      get_mean_speed (SportsWalking (PInt 9000) (PInt 1) (PInt 75) (PInt 180))
        = Ok v /\ ge0 v = true) /\
  match
    get_spent_calories (SportsWalking (PInt 9000) (PInt 1) (PInt 75) (PInt 180))
  with
  | Ok c => ge0 c = true \/ (is_nan c = true /\ py_gt0 (PInt 75) = false)
  | Raise e =>
      e = OverflowError /\
      class_name (SportsWalking (PInt 9000) (PInt 1) (PInt 75) (PInt 180))
        = "SportsWalking"
  end.
Proof.
  apply (measures_not_negative
           (SportsWalking (PInt 9000) (PInt 1) (PInt 75) (PInt 180)));
    vm_compute; reflexivity.
Defined.

(** C10 as the specification states it fails: a [Running] session with
    one step, the smallest positive duration and weight zero meets the
    conditions, its mean speed overflows to infinity, and
    [get_spent_calories()] returns a NaN, which is not at least zero. *)
Lemma running_calories_nan :
  valid_binary prec emax min_subnormal = true /\
  py_ge0 (PInt 1) = true /\ py_ge0 (PInt 0) = true /\
  py_gt0 (PFloat min_subnormal) = true /\
  get_mean_speed (Running (PInt 1) (PFloat min_subnormal) (PInt 0))
    = Ok infinity /\
  get_spent_calories (Running (PInt 1) (PFloat min_subnormal) (PInt 0))
    = Ok nan /\
  ge0 nan = false.
Proof. repeat split; vm_compute; reflexivity. Qed.

(** The same with finite results only up to the mean speed: the weight
    being above zero, the calories of the session are infinite, not a
    NaN. *)
Example running_calories_infinite :
  get_spent_calories (Running (PInt 1) (PFloat min_subnormal) (PInt 75))
    = Ok infinity.
Proof. vm_compute. reflexivity. Qed.

(** [SportsWalking] raises when the square of the mean speed overflows. *)
Example walking_calories_overflow :
  get_spent_calories
    (SportsWalking (PInt 1) (PFloat (S754_finite false 4503599627370496 (-652)))
       (PInt 75) (PInt 180))
    = Raise OverflowError /\
  valid_binary prec emax (S754_finite false 4503599627370496 (-652)) = true.
Proof. split; vm_compute; reflexivity. Qed.

(** ** More on the dispatcher *)

Lemma call_ok_length (c : klass) (data : list pyval) (s : Training) :
  call c data = Ok s -> List.length data = arity c /\ init_args s = data.
Proof.
  destruct c; destruct data as [|x1 [|x2 [|x3 [|x4 [|x5 [|x6 data]]]]]];
    cbn [call]; try discriminate; intros [= <-]; split; reflexivity.
Qed.

Lemma call_length_ok (c : klass) (data : list pyval) :
  List.length data = arity c -> exists s, call c data = Ok s.
Proof.
  destruct c; destruct data as [|x1 [|x2 [|x3 [|x4 [|x5 [|x6 data]]]]]];
    cbn [arity List.length]; try discriminate; intros _; eexists; reflexivity.
Qed.

(** X1: the dispatcher returns a session exactly when the code is a key of
    the dictionary and the list has as many elements as the constructor of
    the class has parameters; the values themselves are never examined. *)
Theorem read_package_ok_iff (code : string) (data : list pyval) :
  (exists s, read_package code data = Ok s) <->
  (exists c, lookup code workout_types = Some c /\
             List.length data = arity c).
Proof.
  unfold read_package. split.
  - intros [s Hs]. destruct (lookup code workout_types) as [c|]; [|discriminate].
    exists c. split; [reflexivity|]. apply (call_ok_length c data s Hs).
  - intros (c & -> & Hlen). apply call_length_ok. assumption.
Qed.

(** X2: the dispatcher and the pair (code of the class, attributes in
    constructor order) are inverse to each other: every session is what
    [read_package] returns on its own code and attributes, and a returned
    session stores the list it was built from, unchanged and in order,
    under the class of the code. *)
Theorem read_package_round_trip (code : string) (data : list pyval)
    (s : Training) :
  read_package (code_of s) (init_args s) = Ok s /\
  (read_package code data = Ok s -> code = code_of s /\ data = init_args s).
Proof.
  split; [destruct s; reflexivity|].
  unfold read_package. intros H.
  destruct (lookup code workout_types) as [c|] eqn:Hc; [|discriminate].
  destruct (call_ok_length c data s H) as [_ Hargs].
  split; [|symmetry; assumption].
  destruct (lookup_known code c Hc) as [[-> ->]|[[-> ->]|[-> ->]]];
    destruct s; cbn [call init_args] in *; subst;
    try discriminate; reflexivity.
Qed.

Lemma read_package_round_trip_witness :
  read_package "WLK" [PInt 9000; PInt 1; PInt 75; PInt 180]
    = Ok (SportsWalking (PInt 9000) (PInt 1) (PInt 75) (PInt 180)) /\
  "WLK" = code_of (SportsWalking (PInt 9000) (PInt 1) (PInt 75) (PInt 180)) /\
  [PInt 9000; PInt 1; PInt 75; PInt 180]
    = init_args (SportsWalking (PInt 9000) (PInt 1) (PInt 75) (PInt 180)).
Proof.
  split; [reflexivity|].
  apply (read_package_round_trip "WLK" [PInt 9000; PInt 1; PInt 75; PInt 180]
           (SportsWalking (PInt 9000) (PInt 1) (PInt 75) (PInt 180))).
  reflexivity.
Defined.

(** ** What the measures read and how they fail *)

Lemma get_distance_unfold (s : Training) :
  get_distance s =
    (a <- as_double (action s) ;;
     Ok (div (mul a (LEN_STEP s)) (of_Z 1000))).
Proof.
  destruct s; cbn [get_distance action LEN_STEP]; rewrite float_mul_r;
    (destruct (as_double _); cbn [bind]; [apply float_div_1000|reflexivity]).
Qed.

Lemma get_mean_speed_unfold (s : Training) :
  get_mean_speed s =
    (d <- get_distance s ;; float_div (PFloat d) (duration s)).
Proof. destruct s; reflexivity. Qed.

Lemma as_double_raise (v : pyval) (e : exn) :
  as_double v = Raise e ->
  e = OverflowError /\ exists z, v = PInt z /\ is_infinity (of_Z z) = true.
Proof.
  destruct v as [z|f]; cbn [as_double]; [|discriminate].
  destruct (is_infinity (of_Z z)) eqn:Hz; [|discriminate].
  intros [= <-]. eauto.
Qed.

Lemma get_distance_raise_inv (s : Training) (e : exn) :
  get_distance s = Raise e ->
  e = OverflowError /\
  exists z, action s = PInt z /\ is_infinity (of_Z z) = true.
Proof.
  rewrite get_distance_unfold.
  destruct (as_double (action s)) as [a|e'] eqn:Ha; cbn [bind];
    [discriminate|]. intros [= <-]. apply as_double_raise. assumption.
Qed.

(** X3: [get_distance()] fails in one way only: it raises [OverflowError]
    exactly when the action is an int too large to convert to a float.  It
    returns for every float action, and never divides by zero. *)
Theorem get_distance_raise_iff (s : Training) (e : exn) :
  get_distance s = Raise e <->
  e = OverflowError /\
  exists z, action s = PInt z /\ is_infinity (of_Z z) = true.
Proof.
  split; [apply get_distance_raise_inv|].
  rewrite get_distance_unfold.
  intros (-> & z & Hz & Hinf). rewrite Hz. cbn [as_double].
  rewrite Hinf. reflexivity.
Qed.

Example get_distance_overflow :
  get_distance (Running (PInt (2 ^ 1024)) (PInt 1) (PInt 75))
    = Raise OverflowError /\
  (exists x, get_distance (Running (PInt (2 ^ 1024 - 2 ^ 970 - 1)) (PInt 1)
                             (PInt 75)) = Ok x /\ is_finite x = true).
Proof. split; [vm_compute; reflexivity|]. eexists. vm_compute. split; reflexivity. Qed.

Lemma as_double_eq0 (v : pyval) :
  py_ne0 v = false -> exists b, as_double v = Ok b /\ eqb b zero = true.
Proof.
  destruct v as [z|f]; cbn [py_ne0 as_double]; intros H;
    apply negb_false_iff in H.
  - apply Z.eqb_eq in H. subst z. exists zero. split; reflexivity.
  - eauto.
Qed.

(** X4: no constructor rejects a duration of zero; once the distance is
    computed, [get_mean_speed()] raises [ZeroDivisionError] exactly when
    the duration is zero (the int [0] or a float zero of either sign). *)
Theorem get_mean_speed_zero_division (s : Training) (d : float) :
  get_distance s = Ok d ->
  (get_mean_speed s = Raise ZeroDivisionError <-> py_ne0 (duration s) = false).
Proof.
  intros Hd. rewrite get_mean_speed_unfold, Hd. cbn [bind]. split.
  - intros H. destruct (py_ne0 (duration s)) eqn:Hne; [|reflexivity].
    unfold float_div in H. cbn [as_double bind] in H.
    destruct (as_double (duration s)) as [t|e] eqn:Ht; cbn [bind] in H.
    + rewrite (as_double_ne0 _ _ Hne Ht) in H. discriminate.
    + apply as_double_raise in Ht as [-> _]. discriminate.
  - intros H. destruct (as_double_eq0 _ H) as (b & Hb & Hz).
    unfold float_div. cbn [as_double bind]. rewrite Hb. cbn [bind].
    rewrite Hz. reflexivity.
Qed.

Lemma get_mean_speed_zero_division_witness :
  get_mean_speed (SportsWalking (PInt 9000) (PFloat (S754_zero true)) (PInt 75)
                    (PInt 180)) = Raise ZeroDivisionError.
Proof.
  eapply (get_mean_speed_zero_division
            (SportsWalking (PInt 9000) (PFloat (S754_zero true)) (PInt 75)
               (PInt 180))); [vm_compute|]; reflexivity.
Defined.

(** X5: the distance depends on the action and on the step length of the
    class only, and the mean speed on these and the duration: two sessions
    that agree on them, of the same class or not, have the same distance
    and mean speed.  [Running] and [SportsWalking] have the same step
    length. *)
Theorem distance_and_speed_frame (s s' : Training) :
  action s = action s' -> LEN_STEP s = LEN_STEP s' ->
  get_distance s = get_distance s' /\
  (duration s = duration s' -> get_mean_speed s = get_mean_speed s').
Proof.
  intros Ha Hl.
  assert (H : get_distance s = get_distance s').
  { rewrite !get_distance_unfold, Ha, Hl. reflexivity. }
  split; [assumption|]. intros Hd.
  rewrite !get_mean_speed_unfold, H, Hd. reflexivity.
Qed.

Lemma distance_and_speed_frame_witness :
  get_distance (Running (PInt 9000) (PInt 1) (PInt 60))
    = get_distance (SportsWalking (PInt 9000) (PInt 1) (PInt 75) (PInt 180)) /\
  get_mean_speed (Running (PInt 9000) (PInt 1) (PInt 60))
    = get_mean_speed (SportsWalking (PInt 9000) (PInt 1) (PInt 75) (PInt 180)).
Proof.
  destruct (distance_and_speed_frame
              (Running (PInt 9000) (PInt 1) (PInt 60))
              (SportsWalking (PInt 9000) (PInt 1) (PInt 75) (PInt 180))
              eq_refl eq_refl) as [H1 H2].
  split; [exact H1|exact (H2 eq_refl)].
Defined.

(** ** Propagation of exceptions *)

Lemma bind_ok {A B : Type} (c : result A) (k : A -> result B) (r : B) :
  bind c k = Ok r -> exists a, c = Ok a /\ k a = Ok r.
Proof. destruct c as [a|e]; cbn [bind]; [eauto|discriminate]. Qed.

Lemma bind_raise {A B : Type} (c : result A) (k : A -> result B) (e : exn) :
  bind c k = Raise e ->
  c = Raise e \/ exists a, c = Ok a /\ k a = Raise e.
Proof. destruct c as [a|e']; cbn [bind]; [eauto|intros [= <-]; auto]. Qed.

Lemma float_mul_raise (v w : pyval) (e : exn) :
  float_mul v w = Raise e -> e = OverflowError.
Proof.
  unfold float_mul. intros H.
  apply bind_raise in H as [H|(a & _ & H)]; [apply as_double_raise in H; tauto|].
  apply bind_raise in H as [H|(b & _ & H)]; [apply as_double_raise in H; tauto|].
  discriminate.
Qed.

Lemma float_add_raise (v w : pyval) (e : exn) :
  float_add v w = Raise e -> e = OverflowError.
Proof.
  unfold float_add. intros H.
  apply bind_raise in H as [H|(a & _ & H)]; [apply as_double_raise in H; tauto|].
  apply bind_raise in H as [H|(b & _ & H)]; [apply as_double_raise in H; tauto|].
  discriminate.
Qed.

Lemma float_div_raise (v w : pyval) (e : exn) :
  float_div v w = Raise e -> e = OverflowError \/ e = ZeroDivisionError.
Proof.
  unfold float_div. intros H.
  apply bind_raise in H as [H|(a & _ & H)]; [apply as_double_raise in H; tauto|].
  apply bind_raise in H as [H|(b & _ & H)]; [apply as_double_raise in H; tauto|].
  destruct (eqb b zero); [injection H as <-; auto|discriminate].
Qed.

Lemma float_pow2_raise (x : float) (e : exn) :
  float_pow2 x = Raise e -> e = OverflowError.
Proof.
  destruct x as [s|s| |s m ex]; cbn [float_pow2]; try discriminate.
  destruct (eqb _ one); [discriminate|].
  destruct (is_infinity _); [intros [= <-]; reflexivity|discriminate].
Qed.

Lemma get_mean_speed_raise (s : Training) (e : exn) :
  get_mean_speed s = Raise e -> e = OverflowError \/ e = ZeroDivisionError.
Proof.
  rewrite get_mean_speed_unfold. intros H.
  apply bind_raise in H as [H|(d & _ & H)].
  - apply get_distance_raise_inv in H. tauto.
  - apply float_div_raise in H. assumption.
Qed.

Lemma calories_after_speed (s : Training) :
  (forall e, get_mean_speed s = Raise e -> get_spent_calories s = Raise e) /\
  (forall c, get_spent_calories s = Ok c -> exists v, get_mean_speed s = Ok v).
Proof.
  split.
  - intros e H. destruct s; cbn [get_spent_calories]; rewrite H; reflexivity.
  - intros c H. destruct s; cbn [get_spent_calories] in H;
      apply bind_ok in H as (v & Hv & _); eauto.
Qed.

Ltac raise_step H :=
  let a := fresh "t" in
  apply bind_raise in H as [H|(a & _ & H)];
  [first [apply float_mul_raise in H | apply float_add_raise in H
         | apply float_pow2_raise in H | apply float_div_raise in H
         | apply get_mean_speed_raise in H]; tauto|].

(** X6: the three measures never raise anything but [OverflowError] and
    [ZeroDivisionError]; in particular no [TypeError] or [ValueError] can
    come out of a session that was constructed. *)
Theorem measures_raise_arithmetic_only (s : Training) (e : exn) :
  get_distance s = Raise e \/ get_mean_speed s = Raise e \/
  get_spent_calories s = Raise e ->
  e = OverflowError \/ e = ZeroDivisionError.
Proof.
  intros [H|[H|H]].
  - apply get_distance_raise_inv in H. tauto.
  - apply get_mean_speed_raise in H. assumption.
  - destruct s; cbn [get_spent_calories] in H; repeat raise_step H;
      first [apply float_mul_raise in H | apply float_div_raise in H]; tauto.
Qed.

Lemma measures_raise_arithmetic_only_witness :
  get_spent_calories (Running (PInt 15000) (PInt 0) (PInt 75))
    = Raise ZeroDivisionError /\
  (ZeroDivisionError = OverflowError \/ ZeroDivisionError = ZeroDivisionError).
Proof.
  split; [vm_compute; reflexivity|].
  apply (measures_raise_arithmetic_only
           (Running (PInt 15000) (PInt 0) (PInt 75)) ZeroDivisionError).
  right. right. vm_compute. reflexivity.
Defined.

(** X7: the summary line is produced exactly when the calories are: if
    [get_spent_calories()] raises, [show_training_info()] raises the same
    exception, and if it returns, the line is made of the class name and of
    the duration, the distance, the mean speed and the calories, each with
    the format [.3f], in this order. *)
Theorem summary_follows_calories (L : labels) (s : Training) :
  (forall e, get_spent_calories s = Raise e -> summary_with L s = Raise e) /\
  (forall c, get_spent_calories s = Ok c ->
     exists t d v,
       as_double (duration s) = Ok t /\ get_distance s = Ok d /\
       get_mean_speed s = Ok v /\
       summary_with L s =
         Ok (l_type L ++ class_name s ++ "; " ++
             l_duration L ++ format_3f t ++ u_hours L ++
             l_distance L ++ format_3f d ++ u_km L ++
             l_speed L ++ format_3f v ++ u_kmh L ++
             l_calories L ++ format_3f c ++ ".")).
Proof.
  destruct (calories_after_speed s) as [Hraise Hok].
  assert (Hspeed : forall v, get_mean_speed s = Ok v ->
            exists t d, as_double (duration s) = Ok t /\ get_distance s = Ok d).
  { intros v Hv. rewrite get_mean_speed_unfold in Hv.
    apply bind_ok in Hv as (d & Hd & Hv). unfold float_div in Hv.
    cbn [as_double bind] in Hv. apply bind_ok in Hv as (t & Ht & _). eauto. }
  split.
  - intros e He. unfold summary_with, format_spec_3f.
    destruct (as_double (duration s)) as [t|e'] eqn:Ht; cbn [bind].
    + destruct (get_distance s) as [d|e1] eqn:Hd; cbn [bind].
      * destruct (get_mean_speed s) as [v|e2] eqn:Hv; cbn [bind].
        -- rewrite He. reflexivity.
        -- rewrite (Hraise e2 eq_refl) in He. injection He as <-. reflexivity.
      * assert (Hv : get_mean_speed s = Raise e1)
          by (rewrite get_mean_speed_unfold, Hd; reflexivity).
        rewrite (Hraise e1 Hv) in He. injection He as <-. reflexivity.
    + destruct (as_double_raise _ _ Ht) as [-> _].
      f_equal. symmetry.
      destruct (get_mean_speed s) as [v|e2] eqn:Hv.
      * destruct (Hspeed v eq_refl) as (t & d & Ht' & _).
        discriminate.
      * rewrite (Hraise e2 eq_refl) in He. injection He as <-.
        rewrite get_mean_speed_unfold in Hv.
        apply bind_raise in Hv as [Hv|(d & _ & Hv)].
        -- apply get_distance_raise_inv in Hv as [-> _]. reflexivity.
        -- unfold float_div in Hv. cbn [as_double bind] in Hv.
           rewrite Ht in Hv. injection Hv as <-. reflexivity.
  - intros c Hc. destruct (Hok c Hc) as (v & Hv).
    destruct (Hspeed v Hv) as (t & d & Ht & Hd).
    exists t, d, v. repeat (split; [assumption|]).
    unfold summary_with, format_spec_3f. rewrite Ht, Hd, Hv, Hc. reflexivity.
Qed.

Lemma summary_follows_calories_witness :
  show_training_info (Running (PInt 15000) (PInt 0) (PInt 75))
    = Raise ZeroDivisionError.
Proof.
  apply (summary_follows_calories source_labels
           (Running (PInt 15000) (PInt 0) (PInt 75))).
  vm_compute. reflexivity.
Defined.

(** ** Attributes that are stored and not read *)

(** X8: the pool length and the pool count of a [Swimming] session change
    neither its calories nor its summary line: two sessions that differ in
    them only return the same calories and the same line, or raise the same
    exception. *)
Theorem swimming_pool_unused (L : labels) (a d w pl pc pl' pc' : pyval) :
  get_spent_calories (Swimming a d w pl pc)
    = get_spent_calories (Swimming a d w pl' pc') /\
  summary_with L (Swimming a d w pl pc)
    = summary_with L (Swimming a d w pl' pc').
Proof. split; reflexivity. Qed.

(** ** A height of zero *)

Lemma zero_height_division (h : pyval) (x : float) :
  py_ne0 h = false -> float_div (PFloat x) h = Raise ZeroDivisionError.
Proof.
  intros Hh. destruct (as_double_eq0 h Hh) as (b & Hb & Hz).
  unfold float_div. cbn [as_double bind]. rewrite Hb. cbn [bind].
  rewrite Hz. reflexivity.
Qed.

Lemma zero_height_never_returns (a d w h : pyval) (c : float) :
  py_ne0 h = false -> get_spent_calories (SportsWalking a d w h) <> Ok c.
Proof.
  intros Hh H. cbn [get_spent_calories] in H.
  apply bind_ok in H as (v & _ & H). apply bind_ok in H as (t1 & _ & H).
  apply bind_ok in H as (t2 & _ & H). apply bind_ok in H as (t3 & H & _).
  rewrite zero_height_division in H by assumption. discriminate.
Qed.

(** X9: no constructor rejects a height of zero; [get_spent_calories()] of
    a [SportsWalking] session with height zero never returns, and raises
    [ZeroDivisionError] as soon as the mean speed, the weight and the
    square of the mean speed are computed. *)
Theorem walking_zero_height (a d w h : pyval) :
  py_ne0 h = false ->
  (forall c, get_spent_calories (SportsWalking a d w h) <> Ok c) /\
  (forall v w' sq,
      get_mean_speed (SportsWalking a d w h) = Ok v ->
      as_double w = Ok w' -> float_pow2 v = Ok sq ->
      get_spent_calories (SportsWalking a d w h) = Raise ZeroDivisionError).
Proof.
  intros Hh. split.
  - intros c. apply zero_height_never_returns. assumption.
  - intros v w' sq Hv Hw Hsq. cbn [get_spent_calories].
    rewrite Hv. cbn [bind]. rewrite float_mul_l, Hw. cbn [bind].
    rewrite Hsq. cbn [bind]. rewrite zero_height_division by assumption.
    reflexivity.
Qed.

Lemma walking_zero_height_witness :
  get_spent_calories (SportsWalking (PInt 9000) (PInt 1) (PInt 75) (PInt 0))
    = Raise ZeroDivisionError.
Proof.
  eapply (walking_zero_height (PInt 9000) (PInt 1) (PInt 75) (PInt 0)).
  - reflexivity.
  - vm_compute. reflexivity.
  - vm_compute. reflexivity.
  - vm_compute. reflexivity.
Defined.

(** ** A session without steps, a user without weight *)

Lemma div_zero_l (s : bool) (x : float) :
  is_nan x = false -> is_zero x = false ->
  exists s', div (S754_zero s) x = S754_zero s'.
Proof.
  destruct x as [sx|sx| |sx m e]; try discriminate; intros _ _;
    eexists; reflexivity.
Qed.

Lemma eqb_zero_is_zero (x : float) : eqb x zero = is_zero x.
Proof. destruct x as [s|[|]| |[|] m e]; reflexivity. Qed.

(** X10: a session with action zero has distance zero and, for a duration
    that is a number other than zero, mean speed zero; yet a [Running]
    session then still spends [1.79 * weight * duration] and a [Swimming]
    session [1.1 * 2 * weight * duration]. *)
Theorem no_steps (s : Training) (a t w' : float) :
  as_double (action s) = Ok a -> is_zero a = true ->
  as_double (duration s) = Ok t -> is_zero t = false -> is_nan t = false ->
  as_double (weight s) = Ok w' ->
  get_distance s = Ok a /\
  (exists sg, get_mean_speed s = Ok (S754_zero sg)) /\
  match s with
  | Running _ _ _ =>
      get_spent_calories s = Ok (mul (mul (decimal 179 2) w') t)
  | Swimming _ _ _ _ _ =>
      get_spent_calories s
        = Ok (mul (mul (mul (decimal 11 1) (of_Z 2)) w') t)
  | SportsWalking _ _ _ _ => True
  end.
Proof.
  intros Ha Hza Ht Hzt Hnt Hw.
  destruct a as [sa| | |]; try discriminate.
  assert (Hd : get_distance s = Ok (S754_zero sa)).
  { rewrite get_distance_unfold, Ha. cbn [bind]. do 2 f_equal.
    destruct s, sa; reflexivity. }
  destruct (div_zero_l sa t Hnt Hzt) as [sg Hsg].
  assert (Hv : get_mean_speed s = Ok (S754_zero sg)).
  { rewrite get_mean_speed_unfold, Hd. cbn [bind].
    rewrite (float_div_ok _ t) by (rewrite ?eqb_zero_is_zero; assumption).
    rewrite Hsg. reflexivity. }
  split; [assumption|]. split; [eauto|].
  destruct s as [a d w|a d w h|a d w pl pc]; [| exact I |];
    cbn [duration weight] in Ht, Hw.
  - rewrite running_calories_unfold, Hv, Hw, Ht. cbn [bind].
    destruct sg; reflexivity.
  - rewrite swimming_calories_unfold, Hv, Hw, Ht. cbn [bind].
    destruct sg; reflexivity.
Qed.

Lemma no_steps_witness :
  get_spent_calories (Running (PInt 0) (PInt 1) (PInt 75))
    = Ok (mul (mul (decimal 179 2) (of_Z 75)) (of_Z 1)).
Proof.
  eapply (no_steps (Running (PInt 0) (PInt 1) (PInt 75)) zero (of_Z 1) (of_Z 75));
    vm_compute; reflexivity.
Defined.

Lemma mul_by_zero (x : float) (s : bool) :
  is_zero (mul x (S754_zero s)) || is_nan (mul x (S754_zero s)) = true.
Proof. destruct x as [[|]|[|]| |[|] m e], s; reflexivity. Qed.

Lemma mul_zero_or_nan (x y : float) :
  is_zero x || is_nan x = true -> is_finite y = true ->
  is_zero (mul x y) || is_nan (mul x y) = true.
Proof.
  destruct x as [[|]|[|]| |[|] m e]; try discriminate; intros _;
    destruct y as [[|]|[|]| |[|] my ey]; try discriminate; reflexivity.
Qed.

Lemma add_zero_or_nan (x y : float) :
  is_zero x = true -> is_zero y || is_nan y = true ->
  is_zero (add x y) || is_nan (add x y) = true.
Proof.
  destruct x as [[|]|[|]| |[|] m e]; try discriminate; intros _;
    destruct y as [[|]|[|]| |[|] my ey]; try discriminate; reflexivity.
Qed.

Lemma Ok_inj {A : Type} (a b : A) : Ok a = Ok b -> a = b.
Proof. intros [= ->]. reflexivity. Qed.

(** X11: with a weight of zero and a finite duration, the calories of a
    session of any class are zero whenever they are a number: what
    [get_spent_calories()] returns is a zero or a NaN. *)
Theorem no_weight_no_calories (s : Training) (w' t c : float) :
  as_double (weight s) = Ok w' -> is_zero w' = true ->
  as_double (duration s) = Ok t -> is_finite t = true ->
  get_spent_calories s = Ok c ->
  is_zero c || is_nan c = true.
Proof.
  intros Hw Hzw Ht Hft Hc.
  destruct w' as [sw| | |]; try discriminate.
  destruct s as [a d w|a d w h|a d w pl pc]; cbn [duration weight] in Ht, Hw.
  - rewrite running_calories_unfold in Hc.
    apply bind_ok in Hc as (v & _ & Hc). rewrite Hw, Ht in Hc.
    cbn [bind] in Hc. apply Ok_inj in Hc. subst c.
    apply mul_zero_or_nan; [apply mul_by_zero|assumption].
  - destruct (py_ne0 h) eqn:Hh;
      [|exfalso; exact (zero_height_never_returns a d w h c Hh Hc)].
    rewrite walking_calories_unfold in Hc by assumption.
    apply bind_ok in Hc as (v & _ & Hc). rewrite Hw in Hc. cbn [bind] in Hc.
    apply bind_ok in Hc as (sq & _ & Hc).
    apply bind_ok in Hc as (h' & _ & Hc). rewrite Ht in Hc.
    cbn [bind] in Hc. apply Ok_inj in Hc. subst c.
    apply mul_zero_or_nan; [|reflexivity].
    apply mul_zero_or_nan; [|assumption].
    apply add_zero_or_nan; [|apply mul_by_zero].
    destruct sw; reflexivity.
  - rewrite swimming_calories_unfold in Hc.
    apply bind_ok in Hc as (v & _ & Hc). rewrite Hw, Ht in Hc.
    cbn [bind] in Hc. apply Ok_inj in Hc. subst c.
    apply mul_zero_or_nan; [apply mul_by_zero|assumption].
Qed.

Lemma no_weight_no_calories_witness :
  is_zero (mul (mul (add (mul (of_Z 18)
                            (div (div (mul (of_Z 15000) (decimal 65 2))
                                    (of_Z 1000)) (of_Z 1)))
                       (decimal 179 2)) zero) (of_Z 1))
  || is_nan (mul (mul (add (mul (of_Z 18)
                              (div (div (mul (of_Z 15000) (decimal 65 2))
                                      (of_Z 1000)) (of_Z 1)))
                         (decimal 179 2)) zero) (of_Z 1)) = true.
Proof.
  apply (no_weight_no_calories (Running (PInt 15000) (PInt 1) (PInt 0))
           zero (of_Z 1)); vm_compute; reflexivity.
Defined.

(** ** The replacement fields *)

Lemma string_app_assoc (a b c : string) : (a ++ b) ++ c = a ++ (b ++ c).
Proof. induction a as [|x a IH]; cbn; [reflexivity|]. rewrite IH. reflexivity. Qed.

Lemma pad3_digits_table :
  forallb (fun k => Nat.eqb (String.length (pad3 (digits (Z.of_nat k)))) 3)
    (seq 0 1000) = true.
Proof. vm_compute. reflexivity. Qed.

Lemma pad3_digits_length (k : Z) :
  0 <= k < 1000 -> String.length (pad3 (digits k)) = 3%nat.
Proof.
  intros Hk. pose proof pad3_digits_table as H.
  rewrite forallb_forall in H.
  specialize (H (Z.to_nat k)). rewrite Z2Nat.id in H by lia.
  apply Nat.eqb_eq, H, in_seq. lia.
Qed.

Lemma no_point_in_word (s : string) :
  s = "nan" \/ s = "inf" \/ s = "-inf" -> ~ three_decimals s.
Proof.
  intros Hs (ip & fp & H & Hlen).
  destruct Hs as [->|[->| ->]];
    destruct ip as [|c1 [|c2 [|c3 [|c4 [|c5 ip]]]]]; cbn in H;
    injection H; intros; subst; discriminate.
Qed.

(** X12: a replacement field [{x:.3f}] ends in a decimal point and exactly
    three characters if and only if [x] is finite; an infinite [x] or a NaN
    is printed as [inf], [-inf] or [nan], without decimals. *)
Theorem format_3f_three_decimals (x : float) :
  three_decimals (format_3f x) <-> is_finite x = true.
Proof.
  split.
  - destruct x as [s|s| |s m e]; try reflexivity; intros H; exfalso;
      revert H; apply no_point_in_word; cbn [format_3f];
      try destruct s; auto.
  - destruct x as [s|s| |s m e]; try discriminate; intros _; cbn [format_3f].
    + exists (sign_str s ++ "0"), "000". split; [|reflexivity].
      destruct s; reflexivity.
    + unfold fixed3.
      exists (sign_str s ++ digits (scaled3 m e / 1000)),
        (pad3 (digits (scaled3 m e mod 1000))).
      split; [symmetry; apply string_app_assoc|].
      apply pad3_digits_length, Z.mod_pos_bound. lia.
Qed.

Lemma round_half_even_nearest (n d : Z) :
  0 < d -> 2 * Z.abs (n - round_half_even n d * d) <= d.
Proof.
  intros Hd. unfold round_half_even.
  pose proof (Z.div_mod n d ltac:(lia)) as Hn.
  pose proof (Z.mod_pos_bound n d Hd) as Hr.
  destruct (Z.compare_spec (2 * (n mod d)) d) as [H|H|H];
    [destruct (Z.even (n / d))| |]; nia.
Qed.

(** X13: the digits printed for a finite double are those of the integer
    nearest to a thousand times its exact value: they are exact when the
    exponent is not negative, and otherwise differ from the exact value by
    at most half a unit of the third decimal. *)
Theorem scaled3_nearest (m : positive) (e : Z) :
  0 <= scaled3 m e /\
  (0 <= e -> scaled3 m e = Zpos m * 1000 * 2 ^ e) /\
  (e < 0 ->
   2 * Z.abs (Zpos m * 1000 - scaled3 m e * 2 ^ (- e)) <= 2 ^ (- e)).
Proof.
  destruct e as [|p|p]; cbn [scaled3].
  - split; [lia|]. split; [reflexivity|lia].
  - split; [|split; [reflexivity|lia]].
    assert (0 < 2 ^ Zpos p) by (apply Z.pow_pos_nonneg; lia). nia.
  - assert (Hd : 0 < 2 ^ Zpos p) by (apply Z.pow_pos_nonneg; lia).
    pose proof (round_half_even_nearest (Zpos m * 1000) (2 ^ Zpos p) Hd) as H.
    split; [|split; [lia|intros _; exact H]].
    unfold round_half_even.
    pose proof (Z.div_pos (Zpos m * 1000) (2 ^ Zpos p) ltac:(lia) Hd).
    destruct (2 * _ ?= _); [destruct (Z.even _)| |]; lia.
Qed.

Lemma scaled3_nearest_witness :
  2 * Z.abs (5854679515581645 * 1000 - scaled3 5854679515581645 (-53) * 2 ^ 53)
    <= 2 ^ 53.
Proof.
  apply (scaled3_nearest 5854679515581645 (-53)). reflexivity.
Defined.

(** ** The loop of [main] *)

(** X14: the loop prints the lines of the packages in order up to the
    first package that raises and nothing after it: on a list [ps ++ qs]
    it does what it does on [ps] and, if that ended without an exception,
    goes on with [qs]; it printed a line for every package exactly when no
    exception ended it. *)
Theorem print_all_app (ps qs : list (string * list pyval)) :
  print_all (ps ++ qs)%list =
    match print_all ps with
    | (out, None) => ((out ++ fst (print_all qs))%list, snd (print_all qs))
    | (out, Some e) => (out, Some e)
    end /\
  (List.length (fst (print_all ps)) = List.length ps <->
   snd (print_all ps) = None) /\
  (List.length (fst (print_all ps)) <= List.length ps)%nat.
Proof.
  induction ps as [|[t data] ps IH].
  - cbn. destruct (print_all qs). repeat split; auto.
  - destruct IH as (IH1 & IH2 & IH3).
    cbn [print_all List.app].
    destruct (training <- read_package t data ;; show_training_info training)
      as [line|e].
    + rewrite IH1. destruct (print_all ps) as [out [e|]]; cbn in *.
      * repeat split; try (intros; lia); try discriminate.
        intros H. apply IH2. lia.
      * repeat split; try (intros; lia).
        intros _. f_equal. apply IH2. reflexivity.
    + cbn. repeat split; try discriminate; lia.
Qed.

(** X15: [main] prints the three summary lines of its packages, in order,
    and ends without an exception. *)
Theorem main_output :
  main =
    (["Тип тренировки: Running; Длительность: 1.000 ч; Дистанция: 9.750 км; Ср. скорость: 9.750 км/ч; Потрачено ккал: 13296.750.";
      "Тип тренировки: SportsWalking; Длительность: 1.000 ч; Дистанция: 5.850 км; Ср. скорость: 5.850 км/ч; Потрачено ккал: 182.311.";
      "Тип тренировки: Swimming; Длительность: 1.000 ч; Дистанция: 0.994 км; Ср. скорость: 0.994 км/ч; Потрачено ккал: 334.976."],
     None).
Proof. vm_compute. reflexivity. Qed.

(** ** A negative action *)

Lemma le0_rounded (x : float) : rounded true x -> le0 x = true.
Proof. intros []; reflexivity. Qed.

Lemma div_rounded_neg (mx my : positive) (ex ey : Z) :
  rounded true (div (S754_finite true mx ex) (S754_finite false my ey)).
Proof.
  unfold div, SFdiv, SFdiv_core_binary.
  set (s := ex - ey - _).
  set (m' := match s with Z.pos _ => Z.shiftl (Zpos mx) s | 0 => Zpos mx | Z.neg _ => 0 end).
  assert (Hm' : 0 <= m').
  { subst m'. destruct s; try lia. apply Z.shiftl_nonneg. lia. }
  pose proof (Z.div_pos m' (Zpos my) Hm' ltac:(lia)) as Hq.
  unfold Z.div in Hq.
  destruct (Z.div_eucl m' (Zpos my)) as [q r].
  apply binary_round_aux_rounded. exact Hq.
Qed.

(** X16: no constructor rejects a negative action, and the sign is carried
    through: for a negative int action within the range of the floats,
    [get_distance()] returns a value that is at most zero. *)
Theorem negative_action_distance (s : Training) (p : positive) :
  action s = PInt (Zneg p) -> finite_number (action s) = true ->
  exists x, get_distance s = Ok x /\ le0 x = true.
Proof.
  intros Ha Hfin. unfold finite_number in Hfin. rewrite Ha in Hfin.
  rewrite get_distance_unfold, Ha. cbn [as_double] in *.
  destruct (of_Z_neg p) as [m e|]; cbn [is_infinity is_finite bind] in *;
    [|discriminate].
  eexists. split; [reflexivity|].
  change (of_Z 1000) with (S754_finite false 8796093022208000 (-43)).
  assert (H : rounded true (mul (S754_finite true m e) (LEN_STEP s))).
  { destruct s; apply binary_round_aux_rounded; lia. }
  destruct H as [|m' e'|]; [reflexivity| |reflexivity].
  apply le0_rounded, div_rounded_neg.
Qed.

Lemma negative_action_distance_witness :
  exists x,
    get_distance (Swimming (PInt (-720)) (PInt 1) (PInt 80) (PInt 25) (PInt 40))
      = Ok x /\ le0 x = true.
Proof.
  apply (negative_action_distance
           (Swimming (PInt (-720)) (PInt 1) (PInt 80) (PInt 25) (PInt 40))
           720); reflexivity.
Defined.
